(** * FlowDrishti dashboard: playback, view aggregation, report retrieval

    A shallow embedding of the React component [Dashboard] and of the tab
    components it renders ([OverviewTab], [ComparisonTab]), together with
    the handlers [fetchHistory], [handleDeleteDataset] and
    [handleDownloadReport].

    Conventions of the embedding:
    - a JavaScript number that carries a measurement is the rational it
      denotes ([Q]); counters and identifiers are naturals;
    - React state is a record, an event handler is a function on it;
    - what a handler does to the outside (alerts, requests, file saves) is
      the list of [Effect]s it emits, in program order; what the outside
      answers (the user's confirmation, a response, the clock, the random
      generator) is an argument of the handler;
    - an array that the code shares between a dataset and a view is
      threaded through the view as a store, so that in-place operations
      stay visible to the owner. *)

From Stdlib Require Import List String Ascii Bool Arith ZArith NArith QArith Qround Qabs.
From Stdlib Require Import Lia Lqa Permutation Sorted DecimalString DecimalN.
Import ListNotations.

Set Implicit Arguments.
Set Warnings "-register-all".
Close Scope Q_scope.
Open Scope string_scope.
Open Scope list_scope.
Open Scope nat_scope.

(* ================================================================== *)
(** * Host built-ins *)
(* ================================================================== *)

Module JS.

(** [a < b] on numbers. *)
Definition ltb (a b : Q) : bool := negb (Qle_bool b a).

(** [a > b] on numbers. *)
Definition gtb (a b : Q) : bool := ltb b a.

(** Decimal numeral of a natural number, as [String(n)] prints it. *)
Definition String_of_N (n : N) : string :=
  NilEmpty.string_of_uint (N.to_uint n).

(** The values a JSON response can put in a numeric field of a dataset:
    the field is missing ([undefined]), [null], or a finite number. *)
Inductive value : Type :=
| undefined
| null
| number (q : Q).

(** [ToBoolean]: [undefined], [null] and zero are falsy. *)
Definition truthy (v : value) : bool :=
  match v with
  | undefined => false
  | null => false
  | number q => negb (Qeq_bool q 0%Q)
  end.

(** [v || d] for a numeric default [d]. *)
Definition or_default (v : value) (d : Q) : Q :=
  match v with
  | number q => if truthy v then q else d
  | _ => d
  end.

(** [v < b]: [ToNumber(undefined)] is NaN, which compares false with
    everything; [ToNumber(null)] is [+0]. *)
Definition value_ltb (v : value) (b : Q) : bool :=
  match v with
  | undefined => false
  | null => ltb 0%Q b
  | number q => ltb q b
  end.

(** The integer that [x.toFixed(0)] prints for a non-negative [x]: the
    nearest one, the larger of the two on a tie. *)
Definition round_half_up (x : Q) : Z := Qfloor (x + (1 # 2))%Q.

(** [x.toFixed(0)] for [|x| < 10^21] (above that bound the built-in
    switches to exponent notation): a minus sign when [x < 0], then the
    digits of [|x|] rounded to the nearest integer. *)
Definition toFixed0 (x : Q) : string :=
  ((if ltb x 0%Q then "-" else "") ++
   String_of_N (Z.to_N (round_half_up (Qabs x))))%string.

(** ** Arrays *)

Section Sort.
Variable A : Type.
(** The comparator [(a, b) => number]. *)
Variable compareFn : A -> A -> Q.

(** Place [x], which came before every element of [l] in the input,
    in the sorted list [l]: [x] moves right only past elements that
    the comparator puts strictly first ([compareFn(x, y) > 0]). *)
Fixpoint insert (x : A) (l : list A) : list A :=
  match l with
  | [] => [x]
  | y :: l' =>
      if gtb (compareFn x y) 0%Q then y :: insert x l' else x :: l
  end.

(** [Array.prototype.sort(compareFn)], which the language requires to
    be stable; for a consistent comparator the outcome does not
    depend on the engine's algorithm.  This is the contents of the
    array after the call; the call returns the same array object. *)
Definition Array_sort (l : list A) : list A :=
  fold_right insert [] l.

(** [arr.slice(0, n)]: a fresh array with the first [n] elements. *)
Definition slice0 (n : nat) (l : list A) : list A := firstn n l.
End Sort.

End JS.

(* ================================================================== *)
(** * Data model *)
(* ================================================================== *)

(** One element of [equipment_data]. *)
Module Equipment.
Record t : Type := mk {
  name : string;
  type : string;
  flowrate : Q;
  pressure : Q;
  temperature : Q;
  health_score : Q
}.
End Equipment.

(** The object held in [uploadData], and the shape of the elements of
    [history].  [uploaded_at] is the instant [new Date(uploaded_at)]
    denotes, in milliseconds since the epoch.  A field that an object may
    lack is an [option] or a [JS.value]. *)
Record Dataset : Type := mkDataset {
  id : N;
  uploaded_at : Z;
  total_equipment : N;
  avg_flowrate : JS.value;
  avg_pressure : JS.value;
  avg_health_score : JS.value;
  equipment_type_distribution : option (list (string * N));
  equipment_data : option (list Equipment.t)
}.

(** One element of [realtimeData] (the object [newPoint]). *)
Module Point.
Record t : Type := mk {
  time : string;
  flow : Q;
  pressure : Q;
  temp : Q;
  name : option string
}.
End Point.

(* ================================================================== *)
(** * The Dashboard component: state, playback, tab selection *)
(* ================================================================== *)

(** The props and the [useState] cells of [Dashboard]. *)
Record Dashboard : Type := mkDashboard {
  uploadData : option Dataset;
  activeTab : string;
  history : list Dataset;
  realtimeData : list Point.t;
  isSimulating : bool;
  playbackIndex : nat
}.

(** The component as first mounted with the prop [uploadData]. *)
Definition mount (u : option Dataset) : Dashboard :=
  {| uploadData := u;
     activeTab := "overview";
     history := [];
     realtimeData := [];
     isSimulating := true;
     playbackIndex := 0 |}.

Definition setActiveTab (t : string) (st : Dashboard) : Dashboard :=
  {| uploadData := uploadData st; activeTab := t; history := history st;
     realtimeData := realtimeData st; isSimulating := isSimulating st;
     playbackIndex := playbackIndex st |}.

Definition setHistory (h : list Dataset) (st : Dashboard) : Dashboard :=
  {| uploadData := uploadData st; activeTab := activeTab st; history := h;
     realtimeData := realtimeData st; isSimulating := isSimulating st;
     playbackIndex := playbackIndex st |}.

Definition setRealtimeData (d : list Point.t) (st : Dashboard) : Dashboard :=
  {| uploadData := uploadData st; activeTab := activeTab st;
     history := history st; realtimeData := d;
     isSimulating := isSimulating st; playbackIndex := playbackIndex st |}.

Definition setPlaybackIndex (i : nat) (st : Dashboard) : Dashboard :=
  {| uploadData := uploadData st; activeTab := activeTab st;
     history := history st; realtimeData := realtimeData st;
     isSimulating := isSimulating st; playbackIndex := i |}.

(** What one firing of the interval callback reads from the host:
    [now.toLocaleTimeString()] and the three [Math.random()] draws. *)
Record Clock : Type := mkClock {
  now : string;
  random_flow : Q;
  random_pressure : Q;
  random_temp : Q
}.

(** The rows that playback replays: the guard
    [uploadData && uploadData.equipment_data &&
     uploadData.equipment_data.length > 0]. *)
Definition playable (u : option Dataset) : option (Equipment.t * list Equipment.t) :=
  match u with
  | Some d =>
      match equipment_data d with
      | Some (r :: rs) => Some (r, rs)
      | _ => None
      end
  | None => None
  end.

(** The position read by a tick: [playbackIndex % equipment_data.length]. *)
Definition readIndex (idx len : nat) : nat := idx mod len.

(** The branch that builds [newPoint], with the value
    [setPlaybackIndex] leaves in the index. *)
Definition nextPoint (u : option Dataset) (idx : nat) (c : Clock)
  : Point.t * nat :=
  match playable u with
  | Some (r, rs) =>
      let rows := r :: rs in
      let dataItem := nth (readIndex idx (List.length rows)) rows r in
      (Point.mk (now c)
                (Equipment.flowrate dataItem)
                (Equipment.pressure dataItem)
                (Equipment.temperature dataItem)
                (Some (Equipment.name dataItem)),
       idx + 1)
  | None =>
      (Point.mk (now c)
                (45 + random_flow c * 10)%Q
                (8 + random_pressure c * 4)%Q
                (58 + random_temp c * 5)%Q
                None,
       idx)
  end.

(** [[...prev, newPoint]] followed by the conditional [shift()]. *)
Definition push (prev : list Point.t) (newPoint : Point.t) : list Point.t :=
  let newData := prev ++ [newPoint] in
  if 20 <? List.length newData then tl newData else newData.

(** One firing of the interval callback. *)
Definition tick (c : Clock) (st : Dashboard) : Dashboard :=
  let (newPoint, idx) := nextPoint (uploadData st) (playbackIndex st) c in
  setPlaybackIndex idx (setRealtimeData (push (realtimeData st) newPoint) st).

(** The ticks of a run, oldest first.  Each reads the dataset object as
    the state holds it at that moment. *)
Fixpoint ticks (cs : list Clock) (st : Dashboard) : Dashboard :=
  match cs with
  | [] => st
  | c :: cs' => ticks cs' (tick c st)
  end.

(** The samples those ticks appended, in arrival order. *)
Fixpoint arrivals (cs : list Clock) (st : Dashboard) : list Point.t :=
  match cs with
  | [] => []
  | c :: cs' =>
      fst (nextPoint (uploadData st) (playbackIndex st) c)
        :: arrivals cs' (tick c st)
  end.

(** The effect on [[uploadData]]: [if (uploadData) { setRealtimeData([]);
    setPlaybackIndex(0) }], both updates of one batch. *)
Definition resetSimulation (st : Dashboard) : Dashboard :=
  match uploadData st with
  | Some _ => setPlaybackIndex 0 (setRealtimeData [] st)
  | None => st
  end.

(** The parent passes a new [uploadData]; the effect above runs when the
    render commits, before control returns to the timer queue. *)
Definition receiveUpload (u : option Dataset) (st : Dashboard) : Dashboard :=
  resetSimulation
    {| uploadData := u; activeTab := activeTab st; history := history st;
       realtimeData := realtimeData st; isSimulating := isSimulating st;
       playbackIndex := playbackIndex st |}.

(** The condition under which the interval exists:
    [activeTab === 'realtime' && isSimulating]. *)
Definition simulationRunning (st : Dashboard) : bool :=
  (activeTab st =? "realtime")%string && isSimulating st.

(** The ids of the tab buttons, in the order of the array literal. *)
Definition tabs : list string :=
  ["overview"; "analytics"; "comparison"; "history"].

(** The "No Active Analysis" screen replaces the tab bar:
    [!uploadData && activeTab !== 'history']. *)
Definition showsPrompt (st : Dashboard) : bool :=
  match uploadData st with
  | Some _ => false
  | None => negb (activeTab st =? "history")%string
  end.

(** Everything that can change the component. *)
Inductive step : Dashboard -> Dashboard -> Prop :=
| step_tab st t :
    showsPrompt st = false -> In t tabs ->
    step st (setActiveTab t st)
| step_view_history st :
    showsPrompt st = true ->
    step st (setActiveTab "history" st)
| step_history st h :
    step st (setHistory h st)
| step_upload st u :
    step st (receiveUpload u st)
| step_tick st c :
    simulationRunning st = true ->
    step st (tick c st).

Inductive reachable (u : option Dataset) : Dashboard -> Prop :=
| reach_mount : reachable u (mount u)
| reach_step st st' : reachable u st -> step st st' -> reachable u st'.

(* ================================================================== *)
(** * OverviewTab *)
(* ================================================================== *)

(** The comparator [(a, b) => a.health_score - b.health_score]. *)
Definition byHealth (a b : Equipment.t) : Q :=
  (Equipment.health_score a - Equipment.health_score b)%Q.

(** The props of the watchlist [Bar] chart. *)
Record Watchlist : Type := mkWatchlist {
  labels : list string;
  data : list Q;
  backgroundColor : list string
}.

Definition critical : string := "rgba(239, 68, 68, 0.7)".
Definition warning : string := "rgba(245, 158, 11, 0.7)".

(** [e => e.health_score < 50 ? critical : warning]. *)
Definition barColor (e : Equipment.t) : string :=
  if JS.ltb (Equipment.health_score e) 50%Q then critical else warning.

(** The three chains [equipment_data.sort(..).slice(0, 5).map(..)].
    [sort] works in place on the array that the dataset owns, so each
    chain starts from what the previous one left there; the second
    component is what the array holds afterwards. *)
Definition watchlist (equipment_data : list Equipment.t)
  : Watchlist * list Equipment.t :=
  let arr1 := JS.Array_sort byHealth equipment_data in
  let labels := map Equipment.name (JS.slice0 5 arr1) in
  let arr2 := JS.Array_sort byHealth arr1 in
  let data := map Equipment.health_score (JS.slice0 5 arr2) in
  let arr3 := JS.Array_sort byHealth arr2 in
  let backgroundColor := map barColor (JS.slice0 5 arr3) in
  (mkWatchlist labels data backgroundColor, arr3).

(** The records the watchlist shows. *)
Definition watched (equipment_data : list Equipment.t) : list Equipment.t :=
  JS.slice0 5 (JS.Array_sort byHealth equipment_data).

(** The props of the "Pressure vs Flow Overview" [Line] chart:
    [equipment_data.slice(0, 20).map(..)], three times. *)
Record TrendOverview : Type := mkTrendOverview {
  trend_labels : list string;
  trend_pressure : list Q;
  trend_flow : list Q
}.

Definition trendOverview (equipment_data : list Equipment.t) : TrendOverview :=
  mkTrendOverview
    (map Equipment.name (JS.slice0 20 equipment_data))
    (map Equipment.pressure (JS.slice0 20 equipment_data))
    (map Equipment.flowrate (JS.slice0 20 equipment_data)).

(** The props of the [Doughnut]: [Object.keys] and [Object.values] of
    [equipment_type_distribution || {}]. *)
Definition distribution (d : option (list (string * N)))
  : list string * list N :=
  match d with
  | Some kv => (map fst kv, map snd kv)
  | None => ([], [])
  end.

(** The "System Health" [StatsCard]: its [value] and [color] props. *)
Record StatsCard : Type := mkStatsCard {
  title : string;
  value : string;
  color : string
}.

Definition systemHealth (avg_health_score : JS.value) : StatsCard :=
  mkStatsCard "System Health"
    (JS.toFixed0 (JS.or_default avg_health_score 85%Q) ++ "%")%string
    (if JS.value_ltb avg_health_score 70%Q then "red" else "emerald").

(** What a function component hands back. *)
Inductive Render (A : Type) : Type :=
| RenderNull
| RenderThrows
| Rendered (a : A).
Arguments RenderNull {A}.
Arguments RenderThrows {A}.

Record Overview : Type := mkOverview {
  health_card : StatsCard;
  doughnut : list string * list N;
  bar : Watchlist;
  line : TrendOverview
}.

(** [OverviewTab]: the element (the props of the health card and of the
    three charts, in the order the JSX evaluates them; the three cards
    before them print [total_equipment], [avg_flowrate] and
    [avg_pressure] and touch nothing) and the contents of
    [data.equipment_data] when the function returns. *)
Definition OverviewTab (data : option Dataset)
  : Render (Overview * list Equipment.t) :=
  match data with
  | None => RenderNull
  | Some d =>
      match equipment_data d with
      | None => RenderThrows
      | Some arr =>
          let card := systemHealth (avg_health_score d) in
          let dough := distribution (equipment_type_distribution d) in
          let (w, arr') := watchlist arr in
          let l := trendOverview arr' in
          Rendered (mkOverview card dough w l, arr')
      end
  end.

(** [AnalyticsTab]'s scatter data: [equipment_data.map(e => ({x, y}))]. *)
Definition scatterData (equipment_data : list Equipment.t) : list (Q * Q) :=
  map (fun e => (Equipment.flowrate e, Equipment.pressure e)) equipment_data.

(* ================================================================== *)
(** * ComparisonTab *)
(* ================================================================== *)

(** The comparator [(a, b) => new Date(a.uploaded_at) - new Date(b.uploaded_at)]. *)
Definition byDate (a b : Dataset) : Q :=
  inject_Z (uploaded_at a - uploaded_at b).

Definition msPerDay : Z := 86400000.

(** The calendar day an instant falls on, counted from 1970-01-01, in a
    zone [tz] milliseconds east of Greenwich. *)
Definition dayOf (tz t : Z) : Z := ((t + tz) / msPerDay)%Z.

(** Year, month and day of month of a day number (proleptic Gregorian
    calendar). *)
Definition civil (day : Z) : Z * Z * Z :=
  (let z := day + 719468 in
   let era := z / 146097 in
   let doe := z - era * 146097 in
   let yoe := (doe - doe / 1460 + doe / 36524 - doe / 146096) / 365 in
   let doy := doe - (365 * yoe + yoe / 4 - yoe / 100) in
   let mp := (5 * doy + 2) / 153 in
   let d := doy - (153 * mp + 2) / 5 + 1 in
   let m := if mp <? 10 then mp + 3 else mp - 9 in
   let y := yoe + era * 400 + (if m <=? 2 then 1 else 0) in
   (y, m, d))%Z.

(** [new Date(t).toLocaleDateString()] in the [en-US] locale: month, day
    and year, no time of day. *)
Definition toLocaleDateString (tz t : Z) : string :=
  let '(y, m, d) := civil (dayOf tz t) in
  (JS.String_of_N (Z.to_N m) ++ "/" ++ JS.String_of_N (Z.to_N d) ++ "/" ++
   JS.String_of_N (Z.to_N y))%string.

Inductive Comparison : Type :=
| NoHistory
| Trends (labels : list string)
         (healthScore flow pressure : list JS.value)
         (uploads : nat).

(** [ComparisonTab], in a zone [tz] milliseconds east of Greenwich: the
    element, and the contents of the array [history] when the function
    returns.  The sort works on the copy [[...history]]. *)
Definition ComparisonTab (tz : Z) (history : list Dataset)
  : Comparison * list Dataset :=
  match history with
  | [] => (NoHistory, history)
  | _ :: _ =>
      let copy := history in
      let sortedHistory := JS.Array_sort byDate copy in
      let labels := map (fun h => toLocaleDateString tz (uploaded_at h)) sortedHistory in
      (Trends labels
              (map avg_health_score sortedHistory)
              (map avg_flowrate sortedHistory)
              (map avg_pressure sortedHistory)
              (List.length history),
       history)
  end.

(* ================================================================== *)
(** * Handlers: history, deletion, report download *)
(* ================================================================== *)

(** What a handler does to the outside, in program order. *)
Inductive Effect : Type :=
| Get (url : string)
| Delete (url : string)
| Confirm (message : string)
| Alert (message : string)
| ConsoleError (message : string)
| CreateObjectURL
| Download (filename : string)
| RevokeObjectURL.

(** [fetchHistory]; [res] is [res.data] when the request resolves and
    [None] when it rejects. *)
Definition fetchHistory (res : option (list Dataset)) (st : Dashboard)
  : list Effect * Dashboard :=
  match res with
  | Some data => ([Get "datasets/history/"], setHistory data st)
  | None =>
      ([Get "datasets/history/"; ConsoleError "Failed to fetch history"], st)
  end.

(** [handleDeleteDataset(id)]; [confirmed] is what [window.confirm]
    returns, [deleted] tells whether [api.delete] resolves, [res] is the
    answer to the history request that may follow. *)
Definition handleDeleteDataset (id : N) (confirmed deleted : bool)
    (res : option (list Dataset)) (st : Dashboard)
  : list Effect * Dashboard :=
  let ask :=
    Confirm ("Are you sure you want to delete dataset #" ++ JS.String_of_N id ++
             "? This action cannot be undone.")%string in
  if negb confirmed then ([ask], st)
  else
    let request := Delete ("datasets/" ++ JS.String_of_N id ++ "/")%string in
    if deleted then
      let (effects, st') := fetchHistory res st in
      (ask :: request :: effects, st')
    else
      ([ask; request;
        ConsoleError "Failed to delete dataset";
        Alert "Failed to delete dataset. Please try again."], st).

(** ** JSON values *)

(** What [JSON.parse] returns.  A number is kept as the numeral that
    [String(n)] prints for it, which identifies it (both zeros print
    [0]); this code only tests numbers for truth and prints them.  The
    members of an object have distinct keys. *)
Inductive json : Type :=
| JNull
| JBool (b : bool)
| JNumber (numeral : string)
| JString (s : string)
| JArray (elements : list json)
| JObject (members : list (string * json)).

(** [ToBoolean] on a parsed value. *)
Definition json_truthy (v : json) : bool :=
  match v with
  | JNull => false
  | JBool b => b
  | JNumber numeral => negb (numeral =? "0")%string
  | JString s => negb (s =? "")%string
  | JArray _ => true
  | JObject _ => true
  end.

(** How an expression completes. *)
Inductive Completion (A : Type) : Type :=
| Normal (a : A)
| Throws.
Arguments Throws {A}.

Fixpoint lookup (key : string) (members : list (string * json)) : option json :=
  match members with
  | [] => None
  | (k, v) :: rest => if (k =? key)%string then Some v else lookup key rest
  end.

(** [ToString] on a parsed value, as a template literal applies it.  An
    object prints as [[object Object]] through the [toString] it
    inherits; when it has a member of its own named [toString], that
    member (never a function) hides the inherited one and the conversion
    throws a [TypeError].  An array prints its elements joined by
    commas, [null] elements as nothing, and throws when one of them
    does. *)
Fixpoint ToString (v : json) : Completion string :=
  match v with
  | JNull => Normal "null"
  | JBool true => Normal "true"
  | JBool false => Normal "false"
  | JNumber numeral => Normal numeral
  | JString s => Normal s
  | JArray elements =>
      match
        (fix join (l : list json) : Completion (list string) :=
           match l with
           | [] => Normal []
           | e :: l' =>
               match (match e with JNull => Normal "" | _ => ToString e end) with
               | Throws => Throws
               | Normal t =>
                   match join l' with
                   | Throws => Throws
                   | Normal ts => Normal (t :: ts)
                   end
               end
           end) elements
      with
      | Throws => Throws
      | Normal ts => Normal (String.concat "," ts)
      end
  | JObject members =>
      match lookup "toString" members with
      | Some _ => Throws
      | None => Normal "[object Object]"
      end
  end.

(** [errObj.error]: a [TypeError] on [null], the member of an object,
    [undefined] ([None]) on anything else. *)
Definition get_error (errObj : json) : Completion (option json) :=
  match errObj with
  | JNull => Throws
  | JObject members => Normal (lookup "error" members)
  | _ => Normal None
  end.

(** [errObj.error || "Generation failed on server."], converted to a
    string by the template literal. *)
Definition errorMessage (error : option json) : Completion string :=
  match error with
  | Some e =>
      if json_truthy e then ToString e
      else Normal "Generation failed on server."
  | None => Normal "Generation failed on server."
  end.

(** ** The report response *)

(** [response.data]: the blob's [type] and [size], and what
    [JSON.parse(reader.result)] makes of its text ([None] when it throws
    a [SyntaxError]). *)
Record Blob : Type := mkBlob {
  blob_type : string;
  blob_size : N;
  blob_json : option json
}.

(** The outcome of [api.get]: a response, or a rejection that carries
    [err.response.status] when the server answered. *)
Inductive Response : Type :=
| Resolved (data : Blob)
| Rejected (status : option N).

Definition reportFilename (id : N) : string :=
  ("Analysis_Report_#" ++ JS.String_of_N id ++ ".pdf")%string.

(** Object URL, temporary link with the [download] attribute, click,
    release of the URL. *)
Definition saveReport (id : N) : list Effect :=
  [CreateObjectURL; Download (reportFilename id); RevokeObjectURL].

(** The test [response.data.type === 'application/json' ||
    response.data.size < 500]. *)
Definition maybeError (b : Blob) : bool :=
  (blob_type b =? "application/json")%string || (blob_size b <? 500)%N.

(** The body of [reader.onload]: the [try] covers the parse, the member
    access, the template literal and the alert; the [catch] saves the
    blob. *)
Definition onload (id : N) (b : Blob) : list Effect :=
  match blob_json b with
  | None => saveReport id
  | Some errObj =>
      match get_error errObj with
      | Throws => saveReport id
      | Normal error =>
          match errorMessage error with
          | Throws => saveReport id
          | Normal message => [Alert ("Report Error: " ++ message)%string]
          end
      end
  end.

(** [handleDownloadReport(id)]. *)
Definition handleDownloadReport (id : N) (response : Response) : list Effect :=
  Get ("reports/" ++ JS.String_of_N id ++ "/pdf/")%string ::
  match response with
  | Resolved b => if maybeError b then onload id b else saveReport id
  | Rejected status =>
      [ConsoleError "Failed to download PDF";
       Alert ("Failed to download report." ++
              match status with
              | Some s => " (Server Status: " ++ JS.String_of_N s ++ ")"
              | None => ""
              end)%string]
  end.

(** The alerts of a trace, and the file names it saves under. *)
Definition alerts (es : list Effect) : list string :=
  flat_map (fun e => match e with Alert m => [m] | _ => [] end) es.

Definition downloads (es : list Effect) : list string :=
  flat_map (fun e => match e with Download f => [f] | _ => [] end) es.

(** What the user sees of a trace. *)
Definition userSees (es : list Effect) : list string * list string :=
  (alerts es, downloads es).

(** ** The retrieval protocol as the specification words it *)

(** The member [error] of a parsed value, if it has one. *)
Definition error_field (v : json) : option json :=
  match v with
  | JObject members => lookup "error" members
  | _ => None
  end.

(** The text of a value in an alert; [[object Object]] stands for a
    value that has no string form. *)
Definition printed (v : json) : string :=
  match ToString v with
  | Normal t => t
  | Throws => "[object Object]"
  end.

(** What the user sees of one retrieval: the alerts and the saved files. *)
Definition fetchReport_spec (id : N) (b : Blob) : list string * list string :=
  if maybeError b then
    match blob_json b with
    | Some v =>
        ([("Report Error: " ++
           match error_field v with
           | Some e => printed e
           | None => "Generation failed on server."
           end)%string], [])
    | None => ([], [reportFilename id])
    end
  else ([], [reportFilename id]).

(* ================================================================== *)
(** * Dashboard: what it renders *)
(* ================================================================== *)

(** The element [renderContent] returns: a tab component with its data
    prop. *)
Inductive Element : Type :=
| OverviewTabElement (data : option Dataset)
| AnalyticsTabElement (data : option Dataset)
| ComparisonTabElement (history : list Dataset)
| HistoryTabElement (history : list Dataset).

(** The [switch (activeTab)] of [renderContent], [default] included. *)
Definition renderContent (st : Dashboard) : Element :=
  if (activeTab st =? "overview")%string then OverviewTabElement (uploadData st)
  else if (activeTab st =? "analytics")%string then AnalyticsTabElement (uploadData st)
  else if (activeTab st =? "comparison")%string then ComparisonTabElement (history st)
  else if (activeTab st =? "history")%string then HistoryTabElement (history st)
  else OverviewTabElement (uploadData st).

(** What [Dashboard] returns: the "No Active Analysis" prompt, or the tab
    bar (which buttons are highlighted, in the order of [tabs]) over the
    content. *)
Inductive Screen : Type :=
| NoActiveAnalysis
| TabBar (highlighted : list bool) (content : Element).

Definition Dashboard_render (st : Dashboard) : Screen :=
  if showsPrompt st then NoActiveAnalysis
  else TabBar (map (fun t => (activeTab st =? t)%string) tabs) (renderContent st).

(** The fixed data of the radar chart. *)
Definition radarData : list Q := [65; 59; 90; 81; 56; 55]%Q.

(** [AnalyticsTab]: the scatter points and the radar values. *)
Definition AnalyticsTab (data : option Dataset)
  : Render (list (Q * Q) * list Q) :=
  match data with
  | None => RenderNull
  | Some d =>
      match equipment_data d with
      | None => RenderThrows
      | Some arr => Rendered (scatterData arr, radarData)
      end
  end.

(** ** The other stats cards *)

(** [x.toFixed(1)] for [|x| < 10^21]: a minus sign when [x < 0], then
    [|x|] rounded to tenths, the larger of the two on a tie, with one
    digit after the point. *)
Definition toFixed1 (x : Q) : string :=
  let n := Z.to_N (JS.round_half_up (Qabs x * 10)%Q) in
  ((if JS.ltb x 0%Q then "-" else "") ++
   JS.String_of_N (n / 10) ++ "." ++ JS.String_of_N (n mod 10))%string.

(** The text a card shows for [v?.toFixed(1) || 0], for a number below
    [10^21] in size. *)
Definition fixed1_or_zero (v : JS.value) : string :=
  match v with
  | JS.number q =>
      let s := toFixed1 q in
      if (s =? "")%string then "0" else s
  | _ => "0"
  end.

Definition flowCard (avg_flowrate : JS.value) : StatsCard :=
  mkStatsCard "Avg Flowrate" (fixed1_or_zero avg_flowrate) "cyan".

Definition pressureCard (avg_pressure : JS.value) : StatsCard :=
  mkStatsCard "Avg Pressure" (fixed1_or_zero avg_pressure) "purple".

(** The object [colors] of [StatsCard]. *)
Definition colors : list (string * string) :=
  [("blue", "text-blue-600 bg-blue-50");
   ("cyan", "text-cyan-600 bg-cyan-50");
   ("purple", "text-purple-600 bg-purple-50");
   ("emerald", "text-emerald-600 bg-emerald-50");
   ("red", "text-red-600 bg-red-50")].

Fixpoint assoc (key : string) (l : list (string * string)) : option string :=
  match l with
  | [] => None
  | (k, v) :: rest => if (k =? key)%string then Some v else assoc key rest
  end.

(** [colors[color] || colors.blue], for a [color] that is not the name of
    a member every object inherits. *)
Definition cardClass (color : string) : string :=
  match assoc color colors with
  | Some c => c
  | None => "text-blue-600 bg-blue-50"
  end.

(* ================================================================== *)
(** * Playback under arbitrary events *)
(* ================================================================== *)

(** What can happen to a mounted [Dashboard], guards aside. *)
Inductive Event : Type :=
| Tick (c : Clock)
| NewUpload (u : option Dataset)
| SelectTab (t : string)
| HistoryLoaded (h : list Dataset).

Definition handle (e : Event) (st : Dashboard) : Dashboard :=
  match e with
  | Tick c => tick c st
  | NewUpload u => receiveUpload u st
  | SelectTab t => setActiveTab t st
  | HistoryLoaded h => setHistory h st
  end.

Fixpoint run (es : list Event) (st : Dashboard) : Dashboard :=
  match es with
  | [] => st
  | e :: es' => run es' (handle e st)
  end.

(* ================================================================== *)
(** * api.js and the App component *)
(* ================================================================== *)

(** The two [localStorage] entries the application uses; [None] is an
    absent key ([getItem] returns [null]). *)
Record Storage : Type := mkStorage {
  flowdrishti_user : option string;
  flowdrishti_token : option string
}.

(** The browser as the application sees it: [localStorage] and the
    default [Authorization] header of the axios instance. *)
Record Browser : Type := mkBrowser {
  localStorage : Storage;
  Authorization : option string
}.

(** Truth of a value that is a string or absent. *)
Definition nonempty (s : option string) : bool :=
  match s with
  | Some t => negb (t =? "")%string
  | None => false
  end.

(** [setAuthToken(token)]. *)
Definition setAuthToken (token : option string) (b : Browser) : Browser :=
  match token with
  | Some t =>
      if nonempty token then
        mkBrowser (mkStorage (flowdrishti_user (localStorage b)) (Some t))
                  (Some ("Token " ++ t)%string)
      else
        mkBrowser (mkStorage (flowdrishti_user (localStorage b)) None) None
  | None =>
      mkBrowser (mkStorage (flowdrishti_user (localStorage b)) None) None
  end.

(** What the module body of [api.js] does when the page loads. *)
Definition apiInit (s : Storage) : Browser :=
  mkBrowser s
    (match flowdrishti_token s with
     | Some t => if nonempty (Some t) then Some ("Token " ++ t)%string else None
     | None => None
     end).

Module App.
Record t : Type := mk {
  user : option string;
  username : string;
  password : string;
  activeTab : string;
  currentUpload : option Dataset;
  loading : bool;
  error : option string
}.
End App.

(** The [useState] initial values. *)
Definition App_initial : App.t :=
  App.mk None "" "" "dashboard" None false None.

(** The mount effect that restores the session. *)
Definition restoreSession (s : Storage) (a : App.t) : App.t :=
  if nonempty (flowdrishti_user s) && nonempty (flowdrishti_token s) then
    App.mk (flowdrishti_user s) (App.username a) (App.password a)
           (App.activeTab a) (App.currentUpload a) (App.loading a) (App.error a)
  else a.

(** A page load with the given storage: [api.js] runs, [App] mounts. *)
Definition boot (s : Storage) : App.t * Browser :=
  (restoreSession s App_initial, apiInit s).

(** The answer to [api.post('auth/login/')]: a rejection, or a body with
    its [token] and the [username] of its [user] (either may be missing). *)
Inductive LoginResponse : Type :=
| LoginRejected
| LoginResolved (token : option string) (user : option string).

(** [handleLogin], from the submit to the end of [finally]. *)
Definition handleLogin (r : LoginResponse) (a : App.t) (b : Browser)
  : App.t * Browser :=
  match r with
  | LoginRejected =>
      (App.mk (App.user a) (App.username a) (App.password a) (App.activeTab a)
              (App.currentUpload a) false (Some "Invalid username or password"),
       b)
  | LoginResolved token None =>
      (App.mk (App.user a) (App.username a) (App.password a) (App.activeTab a)
              (App.currentUpload a) false (Some "Invalid username or password"),
       setAuthToken token b)
  | LoginResolved token (Some name) =>
      let b' := setAuthToken token b in
      (App.mk (Some name) (App.username a) (App.password a) "dashboard"
              (App.currentUpload a) false None,
       mkBrowser (mkStorage (Some name) (flowdrishti_token (localStorage b')))
                 (Authorization b'))
  end.

(** [onUploadSuccess(data)]. *)
Definition onUploadSuccess (data : option Dataset) (a : App.t) : App.t :=
  App.mk (App.user a) (App.username a) (App.password a) "dashboard"
         data (App.loading a) (App.error a).

(** [handleLogout]. *)
Definition handleLogout (a : App.t) (b : Browser) : App.t * Browser :=
  let b' := setAuthToken None b in
  (App.mk None (App.username a) (App.password a) "dashboard"
          None (App.loading a) (App.error a),
   mkBrowser (mkStorage None (flowdrishti_token (localStorage b')))
             (Authorization b')).

(** The two navigation buttons. *)
Definition App_setActiveTab (tab : string) (a : App.t) : App.t :=
  App.mk (App.user a) (App.username a) (App.password a) tab
         (App.currentUpload a) (App.loading a) (App.error a).

(** What [App] returns. *)
Inductive AppView : Type :=
| LoginScreen
| DashboardView (uploadData : option Dataset)
| UploadView.

Definition App_render (a : App.t) : AppView :=
  if negb (nonempty (App.user a)) then LoginScreen
  else if (App.activeTab a =? "dashboard")%string
       then DashboardView (App.currentUpload a)
       else UploadView.

(* ================================================================== *)
(** * The Upload component *)
(* ================================================================== *)

(** The double quote character, as a string. *)
Definition dquote : string := String (ascii_of_nat 34) EmptyString.

Definition hexDigit (n : nat) : string :=
  nth n ["0"; "1"; "2"; "3"; "4"; "5"; "6"; "7"; "8"; "9";
         "a"; "b"; "c"; "d"; "e"; "f"] "0".

(** How [JSON.stringify] writes one character of a string. *)
Definition escapeChar (c : ascii) : string :=
  let n := nat_of_ascii c in
  if n =? 34 then ("\" ++ dquote)%string
  else if n =? 92 then "\\"
  else if n =? 8 then "\b"
  else if n =? 9 then "\t"
  else if n =? 10 then "\n"
  else if n =? 12 then "\f"
  else if n =? 13 then "\r"
  else if n <? 32 then ("\u00" ++ hexDigit (n / 16) ++ hexDigit (n mod 16))%string
  else String c EmptyString.

Fixpoint escape (s : string) : string :=
  match s with
  | EmptyString => EmptyString
  | String c s' => (escapeChar c ++ escape s')%string
  end.

Definition quoteJSONString (s : string) : string :=
  (dquote ++ escape s ++ dquote)%string.

(** [JSON.stringify] on a parsed value. *)
Fixpoint JSON_stringify (v : json) : string :=
  match v with
  | JNull => "null"
  | JBool true => "true"
  | JBool false => "false"
  | JNumber numeral => numeral
  | JString s => quoteJSONString s
  | JArray elements =>
      ("[" ++ String.concat "," (map JSON_stringify elements) ++ "]")%string
  | JObject members =>
      ("{" ++
       String.concat ","
         (map (fun kv : string * json =>
                 let (k, x) := kv in
                 (quoteJSONString k ++ ":" ++ JSON_stringify x)%string)
              members) ++
       "}")%string
  end.

(** [v.key]: the member of an object, [undefined] on any other value
    that is not [null]. *)
Definition member (key : string) (v : json) : option json :=
  match v with
  | JObject members => lookup key members
  | _ => None
  end.

(** [s.replace(pattern, '')]: [s] without the first occurrence of
    [pattern]. *)
Fixpoint drop (n : nat) (s : string) : string :=
  match n, s with
  | O, _ => s
  | S n', String _ s' => drop n' s'
  | S _, EmptyString => EmptyString
  end.

Fixpoint removeFirst (pattern s : string) : string :=
  if String.prefix pattern s then drop (String.length pattern) s
  else
    match s with
    | EmptyString => EmptyString
    | String c s' => String c (removeFirst pattern s')
    end.

Module Upload.
Record File : Type := mkFile {
  name : string;
  size : N
}.

Record t : Type := mk {
  file : option File;
  loading : bool;
  error : option json;
  dragActive : bool
}.
End Upload.

(** The component as first mounted. *)
Definition Upload_initial : Upload.t := Upload.mk None false None false.

(** [handleDrag] on an event of the given [type]. *)
Definition handleDrag (type : string) (u : Upload.t) : Upload.t :=
  if (type =? "dragenter")%string || (type =? "dragover")%string then
    Upload.mk (Upload.file u) (Upload.loading u) (Upload.error u) true
  else if (type =? "dragleave")%string then
    Upload.mk (Upload.file u) (Upload.loading u) (Upload.error u) false
  else u.

(** [handleDrop] with the files of the drop. *)
Definition handleDrop (files : list Upload.File) (u : Upload.t) : Upload.t :=
  match files with
  | f :: _ => Upload.mk (Some f) (Upload.loading u) None false
  | [] => Upload.mk (Upload.file u) (Upload.loading u) (Upload.error u) false
  end.

(** [handleChange] with the files of the input. *)
Definition handleChange (files : list Upload.File) (u : Upload.t) : Upload.t :=
  match files with
  | f :: _ => Upload.mk (Some f) (Upload.loading u) None (Upload.dragActive u)
  | [] => u
  end.

(** The answer to [api.post('datasets/upload/')]: the body of a success,
    or a rejection with [err.response?.data] and [err.message]. *)
Inductive UploadResponse : Type :=
| UploadResolved (data : option Dataset)
| UploadRejected (data : option json) (message : option string).

(** The member [key] of [d] when it is truthy. *)
Definition truthyMember (key : string) (d : json) : option json :=
  match member key d with
  | Some e => if json_truthy e then Some e else None
  | None => None
  end.

(** The value the [catch] block passes to [setError]. *)
Definition uploadErrorMessage (data : option json) (message : option string)
  : json :=
  match data with
  | Some d =>
      if json_truthy d then
        match truthyMember "error" d with
        | Some e => e
        | None =>
            match truthyMember "detail" d with
            | Some e => e
            | None => JString (JSON_stringify d)
            end
        end
      else if nonempty message then
        match message with Some m => JString m | None => JNull end
      else JString "Upload failed. Ensure valid CSV."
  | None =>
      if nonempty message then
        match message with Some m => JString m | None => JNull end
      else JString "Upload failed. Ensure valid CSV."
  end.

(** What [handleUpload] does to the outside. *)
Inductive UploadEffect : Type :=
| PostUpload (csv_file : Upload.File) (name : string)
| CallOnUploadSuccess (data : option Dataset)
| LogError.

(** [handleUpload], from the submit to the end of [finally]. *)
Definition handleUpload (r : UploadResponse) (u : Upload.t)
  : Upload.t * list UploadEffect :=
  match Upload.file u with
  | None =>
      (Upload.mk None (Upload.loading u)
                 (Some (JString "Please select a file.")) (Upload.dragActive u),
       [])
  | Some f =>
      let post := PostUpload f (removeFirst ".csv" (Upload.name f)) in
      match r with
      | UploadResolved data =>
          (Upload.mk None false (Upload.error u) (Upload.dragActive u),
           [post; CallOnUploadSuccess data])
      | UploadRejected data message =>
          (Upload.mk (Some f) false (Some (uploadErrorMessage data message))
                     (Upload.dragActive u),
           [post; LogError])
      end
  end.

(** What React accepts as a child of the banner's [span]: text, a
    number, a boolean or [null] (which render nothing), or an array of
    such; an object is not a valid child and makes the render throw. *)
Fixpoint renderable (v : json) : bool :=
  match v with
  | JObject _ => false
  | JArray elements => forallb renderable elements
  | _ => true
  end.

(** What the expression [{error && (<div>..<span>{error}</span></div>)}]
    yields. *)
Inductive Banner : Type :=
| NoBanner
| ErrorBanner (children : json)
| BannerThrows.

Definition errorBanner (u : Upload.t) : Banner :=
  match Upload.error u with
  | Some e =>
      if json_truthy e then
        if renderable e then ErrorBanner e else BannerThrows
      else NoBanner
  | None => NoBanner
  end.

(** The error banner is on the screen. *)
Definition showsError (u : Upload.t) : bool :=
  match errorBanner u with
  | ErrorBanner _ => true
  | _ => false
  end.

(** The submit button carries [disabled={loading || !file}]. *)
Definition submitDisabled (u : Upload.t) : bool :=
  Upload.loading u ||
  match Upload.file u with Some _ => false | None => true end.

(* ================================================================== *)
(** * Sample data *)
(* ================================================================== *)

(** Six rows whose health scores are 10, 90, 5, 50, 99, 30. *)
Definition sampleRows : list Equipment.t :=
  [ Equipment.mk "Pump-1" "Pump" 120 5 80 10;
    Equipment.mk "Valve-2" "Valve" 60 4 75 90;
    Equipment.mk "Reactor-3" "Reactor" 135 7 140 5;
    Equipment.mk "Pump-4" "Pump" 132 6 131 50;
    Equipment.mk "Condenser-5" "Condenser" 160 7 130 99;
    Equipment.mk "Valve-6" "Valve" 58 4 70 30 ]%Q.

Definition sampleDataset : Dataset :=
  mkDataset 7 1709251200000 6
            (JS.number (665 # 6)) (JS.number (55 # 10)) (JS.number (284 # 6))
            (Some [("Pump", 2%N); ("Valve", 2%N); ("Reactor", 1%N);
                   ("Condenser", 1%N)])
            (Some sampleRows).

(** Two rows, the healthier one first. *)
Definition twoRows : list Equipment.t :=
  [ Equipment.mk "Valve-2" "Valve" 60 4 75 90;
    Equipment.mk "Pump-1" "Pump" 120 5 80 10 ]%Q.

Definition twoRowDataset : Dataset :=
  mkDataset 8 1709251200000 2
            (JS.number 90) (JS.number (45 # 10)) (JS.number 50)
            None (Some twoRows).

Definition noon : Clock := mkClock "12:00:00 PM" (1 # 2) (1 # 4) (3 # 4).

(** History entries uploaded on 2024-03-01 and 2024-01-01 (midnight UTC). *)
Definition march : Dataset :=
  mkDataset 12 1709251200000 6
            (JS.number 110) (JS.number 5) (JS.number 47) None None.

Definition january : Dataset :=
  mkDataset 11 1704067200000 4
            (JS.number 100) (JS.number 6) (JS.number 81) None None.

(** Report responses: a body that reads [null], one whose [error] member
    is the empty string, one whose [error] member is [failed], a PDF of 10,000 bytes, and 200 bytes that
    are not JSON. *)
Definition blobNull : Blob :=
  mkBlob "application/json" 4 (Some JNull).

Definition blobEmptyError : Blob :=
  mkBlob "application/json" 12 (Some (JObject [("error", JString "")])).

Definition blobFailed : Blob :=
  mkBlob "application/json" 18 (Some (JObject [("error", JString "failed")])).

(** A body whose [error] member is an object with a member of its own
    named [toString]. *)
Definition blobOwnToString : Blob :=
  mkBlob "application/json" 24
         (Some (JObject [("error", JObject [("toString", JNumber "0")])])).

Definition blobPdf : Blob := mkBlob "application/pdf" 10000 None.

Definition blobSmall : Blob := mkBlob "application/pdf" 200 None.

(** A selected file, and a component state holding it. *)
Definition telemetryCsv : Upload.File := Upload.mkFile "telemetry.csv" 2048.

Definition fileChosen : Upload.t := Upload.mk (Some telemetryCsv) false None false.

(** A browser with nothing stored. *)
Definition cleanBrowser : Browser := mkBrowser (mkStorage None None) None.

(* ================================================================== *)
(** * Vocabulary of the statements *)
(* ================================================================== *)

(** The last [n] elements of a list, in order. *)
Definition lastn (A : Type) (n : nat) (l : list A) : list A :=
  skipn (List.length l - n) l.

(** The sample a tick makes of a row. *)
Definition replay (c : Clock) (r : Equipment.t) : Point.t :=
  Point.mk (now c) (Equipment.flowrate r) (Equipment.pressure r)
           (Equipment.temperature r) (Some (Equipment.name r)).

(** Order of two records by a numeric key. *)
Definition ascending (A : Type) (key : A -> Q) (a b : A) : Prop :=
  (key a <= key b)%Q.

(** The records whose key equals [k]. *)
Definition tied (A : Type) (key : A -> Q) (k : Q) (a : A) : bool :=
  Qeq_bool (key a) k.

(** The values whose conversion to a string throws: an object with a
    member of its own named [toString], an array that holds such a
    value. *)
Fixpoint unprintable (v : json) : bool :=
  match v with
  | JObject members =>
      match lookup "toString" members with
      | Some _ => true
      | None => false
      end
  | JArray elements => existsb unprintable elements
  | _ => false
  end.

(** The dataset object once its array holds [arr]. *)
Definition withEquipmentData (d : Dataset) (arr : list Equipment.t) : Dataset :=
  mkDataset (id d) (uploaded_at d) (total_equipment d) (avg_flowrate d)
            (avg_pressure d) (avg_health_score d)
            (equipment_type_distribution d) (Some arr).

(** The dataset object once a freshly mounted [Dashboard] has rendered:
    the tab it starts on is the overview, whose render sorts the array
    of the dataset it is given. *)
Definition afterFirstRender (u : option Dataset) : option Dataset :=
  match Dashboard_render (mount u) with
  | TabBar _ (OverviewTabElement (Some d)) =>
      match OverviewTab (Some d) with
      | Rendered (_, arr) => Some (withEquipmentData d arr)
      | _ => u
      end
  | _ => u
  end.

(** The clocks of the ticks among some events, in order. *)
Definition ticksOf (es : list Event) : list Clock :=
  flat_map (fun e => match e with Tick c => [c] | _ => [] end) es.

(** No event is a change of [uploadData]. *)
Definition noUpload (es : list Event) : bool :=
  forallb (fun e => match e with NewUpload _ => false | _ => true end) es.

(** The pattern does not occur in [pre ++ tail] at any position inside
    [pre]: none of the non-empty endings of [pre], followed by [tail],
    starts with it. *)
Fixpoint noEarlier (pattern pre tail : string) : bool :=
  match pre with
  | EmptyString => true
  | String c pre' =>
      negb (String.prefix pattern (pre ++ tail)%string) &&
      noEarlier pattern pre' tail
  end.

(** How many buttons of the tab bar are highlighted. *)
Definition highlights (s : Screen) : nat :=
  match s with
  | NoActiveAnalysis => 0
  | TabBar highlighted _ => List.length (filter (fun b : bool => b) highlighted)
  end.

(** Two component states that playback cannot tell apart. *)
Definition samePlayback (a b : Dashboard) : Prop :=
  uploadData a = uploadData b /\
  realtimeData a = realtimeData b /\
  playbackIndex a = playbackIndex b.

(* ================================================================== *)
(** * Stream buffer and playback index *)
(* ================================================================== *)

Section Window.
Variable A : Type.
Implicit Types l : list A.

Lemma lastn_all n l : List.length l <= n -> lastn n l = l.
Proof.
  intros H. unfold lastn.
  replace (List.length l - n) with 0 by lia. reflexivity.
Qed.

Lemma lastn_length n l : List.length (lastn n l) = Nat.min n (List.length l).
Proof. unfold lastn. rewrite length_skipn. lia. Qed.

Lemma tl_skipn n l : tl (skipn n l) = skipn (S n) l.
Proof.
  revert l. induction n as [|n IH]; intros [|x l]; simpl; auto.
Qed.

Lemma lastn_snoc_full n l x :
  n <= List.length l -> lastn n (l ++ [x]) = tl (lastn n l ++ [x]).
Proof.
  intros H. unfold lastn. rewrite length_app. simpl.
  replace (List.length l + 1 - n) with (S (List.length l - n)) by lia.
  rewrite <- tl_skipn. rewrite skipn_app.
  replace (List.length l - n - List.length l) with 0 by lia. reflexivity.
Qed.
End Window.

(** Appending to a window of the last 20 gives the window of the last 20. *)
Lemma push_lastn (l : list Point.t) p :
  push (lastn 20 l) p = lastn 20 (l ++ [p]).
Proof.
  unfold push.
  assert (Hlen : List.length (lastn 20 l ++ [p]) =
                 Nat.min 20 (List.length l) + 1).
  { rewrite length_app, lastn_length. reflexivity. }
  destruct (Nat.le_gt_cases 20 (List.length l)) as [Hfull|Hshort].
  - rewrite Nat.min_l in Hlen by exact Hfull.
    destruct (Nat.ltb_spec 20 (List.length (lastn 20 l ++ [p]))) as [_|Hle];
      [|lia].
    symmetry. apply lastn_snoc_full. exact Hfull.
  - rewrite Nat.min_r in Hlen by lia.
    destruct (Nat.ltb_spec 20 (List.length (lastn 20 l ++ [p]))) as [Hgt|_];
      [lia|].
    rewrite !lastn_all by (rewrite ?length_app; simpl; lia). reflexivity.
Qed.

Lemma push_fifo prev p :
  push prev p =
  (if List.length prev <? 20 then prev else tl prev) ++ [p].
Proof.
  unfold push. rewrite length_app. simpl.
  destruct (Nat.ltb_spec 20 (List.length prev + 1)) as [Hgt|Hle];
    destruct (Nat.ltb_spec (List.length prev) 20) as [Hlt|Hge]; try lia; auto.
  destruct prev; simpl in *; [lia|reflexivity].
Qed.

Lemma tick_realtimeData c st :
  realtimeData (tick c st) =
  push (realtimeData st) (fst (nextPoint (uploadData st) (playbackIndex st) c)).
Proof.
  unfold tick. destruct (nextPoint _ _ c) as [p i]. reflexivity.
Qed.

Lemma tick_playbackIndex c st :
  playbackIndex (tick c st) =
  snd (nextPoint (uploadData st) (playbackIndex st) c).
Proof.
  unfold tick. destruct (nextPoint _ _ c) as [p i]. reflexivity.
Qed.

Lemma tick_uploadData c st : uploadData (tick c st) = uploadData st.
Proof.
  unfold tick. destruct (nextPoint _ _ c) as [p i]. reflexivity.
Qed.

Lemma ticks_snoc cs c st : ticks (cs ++ [c]) st = tick c (ticks cs st).
Proof.
  revert st. induction cs as [|c0 cs IH]; intros st; simpl; auto.
Qed.

Lemma arrivals_snoc cs c st :
  arrivals (cs ++ [c]) st =
  arrivals cs st ++
  [fst (nextPoint (uploadData (ticks cs st)) (playbackIndex (ticks cs st)) c)].
Proof.
  revert st. induction cs as [|c0 cs IH]; intros st; simpl; auto.
  rewrite IH. reflexivity.
Qed.

Lemma arrivals_length cs st : List.length (arrivals cs st) = List.length cs.
Proof.
  revert st. induction cs as [|c cs IH]; intros st; simpl; auto.
Qed.

Lemma ticks_uploadData cs st : uploadData (ticks cs st) = uploadData st.
Proof.
  revert st. induction cs as [|c cs IH]; intros st; simpl; auto.
  rewrite IH. apply tick_uploadData.
Qed.

(** The buffer is the window of the last 20 of everything it was given. *)
Lemma ticks_window cs st :
  List.length (realtimeData st) <= 20 ->
  realtimeData (ticks cs st) = lastn 20 (realtimeData st ++ arrivals cs st).
Proof.
  intros Hst. induction cs as [|c cs IH] using rev_ind.
  - simpl. rewrite app_nil_r. symmetry. apply lastn_all. exact Hst.
  - rewrite ticks_snoc, arrivals_snoc, tick_realtimeData, IH.
    rewrite push_lastn, app_assoc. reflexivity.
Qed.

(** C1. From the moment the component is mounted, after any sequence of
    ticks the stream buffer holds at most 20 samples, namely the last
    [min 20 n] of the [n] samples produced so far, in arrival order; and
    a further tick appends its sample at the end, dropping the oldest
    one first when 20 are already held. *)
Theorem stream_buffer_is_last_20 :
  forall (u : option Dataset) (cs : list Clock),
    let st := ticks cs (mount u) in
    List.length (realtimeData st) <= 20 /\
    List.length (realtimeData st) = Nat.min 20 (List.length cs) /\
    realtimeData st = lastn 20 (arrivals cs (mount u)) /\
    forall c : Clock,
      realtimeData (tick c st) =
      (if List.length (realtimeData st) <? 20
       then realtimeData st else tl (realtimeData st)) ++
      [fst (nextPoint (uploadData st) (playbackIndex st) c)].
Proof.
  intros u cs st.
  assert (Hw : realtimeData st = lastn 20 (arrivals cs (mount u))).
  { unfold st. rewrite ticks_window by (simpl; lia). reflexivity. }
  assert (Hl : List.length (realtimeData st) = Nat.min 20 (List.length cs)).
  { rewrite Hw, lastn_length, arrivals_length. reflexivity. }
  repeat split; auto.
  - lia.
  - intros c. rewrite tick_realtimeData. apply push_fifo.
Qed.

Lemma playable_rows d rows :
  equipment_data d = Some rows -> 1 <= List.length rows ->
  exists r rs, rows = r :: rs /\ playable (Some d) = Some (r, rs).
Proof.
  intros Hd Hlen. destruct rows as [|r rs]; simpl in Hlen; [lia|].
  exists r, rs. split; [reflexivity|]. simpl. rewrite Hd. reflexivity.
Qed.

Lemma nextPoint_replay u r rs idx c :
  playable u = Some (r, rs) ->
  nextPoint u idx c =
  (replay c (nth (readIndex idx (List.length (r :: rs))) (r :: rs) r), idx + 1).
Proof. intros H. unfold nextPoint. rewrite H. reflexivity. Qed.

Lemma tick_advance c st :
  playbackIndex (tick c st) =
  match playable (uploadData st) with
  | Some _ => playbackIndex st + 1
  | None => playbackIndex st
  end.
Proof.
  rewrite tick_playbackIndex. unfold nextPoint.
  destruct (playable (uploadData st)) as [[r rs]|]; reflexivity.
Qed.

Lemma ticks_count cs st rows :
  playable (uploadData st) = Some rows ->
  playbackIndex (ticks cs st) = playbackIndex st + List.length cs.
Proof.
  intros Hp. induction cs as [|c cs IH] using rev_ind.
  - simpl. lia.
  - rewrite ticks_snoc, tick_advance, ticks_uploadData, Hp, IH, length_app.
    simpl. lia.
Qed.

Lemma nth_default_irrelevant (A : Type) (l : list A) n (a b : A) :
  n < List.length l -> nth n l a = nth n l b.
Proof. intros H. apply nth_indep. exact H. Qed.

(** C2. With a dataset of [N >= 1] rows, a tick advances the playback
    index by exactly one when it replays a row and leaves it alone when it
    synthesizes a sample (no dataset, or no rows); the position it reads
    is the index modulo [N], so after [N + k] replaying ticks the next
    position is [k mod N] (0 when [k = 0]) and the next sample is that
    row's. *)
Theorem playback_index_wraps :
  forall (d : Dataset) (rows : list Equipment.t) (r0 : Equipment.t)
         (k : nat) (cs : list Clock) (c : Clock),
    equipment_data d = Some rows ->
    1 <= List.length rows ->
    List.length cs = List.length rows + k ->
    let n := List.length rows in
    let st := ticks cs (mount (Some d)) in
    playbackIndex st = n + k /\
    readIndex (playbackIndex st) n = k mod n /\
    (k = 0 -> readIndex (playbackIndex st) n = 0) /\
    fst (nextPoint (uploadData st) (playbackIndex st) c) =
      replay c (nth (k mod n) rows r0) /\
    playbackIndex (tick c st) = playbackIndex st + 1 /\
    (forall (s : Dashboard) (c' : Clock),
        playable (uploadData s) = None ->
        playbackIndex (tick c' s) = playbackIndex s) /\
    (forall (s : Dashboard) (c' : Clock),
        playable (uploadData s) <> None ->
        playbackIndex (tick c' s) = playbackIndex s + 1) /\
    (forall u : option Dataset,
        playable u = None <->
        u = None \/
        exists d', u = Some d' /\
                   (equipment_data d' = None \/ equipment_data d' = Some [])).
Proof.
  intros d rows r0 k cs c Hd Hlen Hcs n st.
  destruct (playable_rows d Hd Hlen) as (r & rs & Hrows & Hp).
  assert (Hu : uploadData st = Some d).
  { unfold st. rewrite ticks_uploadData. reflexivity. }
  assert (Hidx : playbackIndex st = n + k).
  { unfold st. rewrite (@ticks_count cs (mount (Some d)) (r, rs)) by exact Hp.
    simpl. unfold n. lia. }
  assert (Hread : readIndex (playbackIndex st) n = k mod n).
  { rewrite Hidx. unfold readIndex.
    replace (n + k) with (k + 1 * n) by lia.
    apply Nat.Div0.mod_add. }
  split; [exact Hidx|]. split; [exact Hread|]. split.
  { intros ->. rewrite Hread. apply Nat.Div0.mod_0_l. }
  split.
  { rewrite Hu. erewrite nextPoint_replay by exact Hp. cbn [fst].
    rewrite <- Hrows. fold n. rewrite Hread. f_equal.
    apply nth_default_irrelevant.
    apply Nat.mod_upper_bound. unfold n. lia. }
  split.
  { rewrite tick_advance, Hu, Hp. reflexivity. }
  split.
  { intros s c' Hs. rewrite tick_advance, Hs. reflexivity. }
  split.
  { intros s c' Hs. rewrite tick_advance.
    destruct (playable (uploadData s)); [reflexivity|congruence]. }
  intros u. unfold playable. split.
  - destruct u as [d'|]; [|auto]. intros H. right. exists d'. split; auto.
    destruct (equipment_data d') as [[|x xs]|]; auto. discriminate.
  - intros [->|(d' & -> & [H|H])]; auto; rewrite H; reflexivity.
Qed.

Lemma tick_samePlayback c a b :
  samePlayback a b -> samePlayback (tick c a) (tick c b).
Proof.
  intros (Hu & Hr & Hi). unfold samePlayback.
  rewrite !tick_uploadData, !tick_realtimeData, !tick_playbackIndex.
  rewrite Hu, Hr, Hi. auto.
Qed.

Lemma ticks_samePlayback cs a b :
  samePlayback a b -> samePlayback (ticks cs a) (ticks cs b).
Proof.
  revert a b. induction cs as [|c cs IH]; intros a b H; simpl; auto.
  apply IH, tick_samePlayback, H.
Qed.

(** C6. When a new dataset becomes the active one, the buffer is emptied
    and the index set to 0 in the same transition, whatever they held;
    every later tick behaves as on a freshly mounted component with that
    dataset, so nothing of the old buffer or index is seen again. *)
Theorem upload_resets_playback :
  forall (st : Dashboard) (d : Dataset) (cs : list Clock),
    let st' := receiveUpload (Some d) st in
    uploadData st' = Some d /\
    realtimeData st' = [] /\
    playbackIndex st' = 0 /\
    samePlayback (ticks cs st') (ticks cs (mount (Some d))) /\
    realtimeData (ticks cs st') = lastn 20 (arrivals cs (mount (Some d))).
Proof.
  intros st d cs st'.
  assert (Hs : samePlayback st' (mount (Some d))).
  { unfold samePlayback. auto. }
  repeat split; try reflexivity; try apply (ticks_samePlayback cs Hs).
  destruct (ticks_samePlayback cs Hs) as (_ & -> & _).
  rewrite ticks_window by (simpl; lia). reflexivity.
Qed.

Lemma playback_index_wraps_witness :
  readIndex
    (playbackIndex
       (ticks [noon; noon; noon; noon; noon; noon; noon]
              (mount (Some sampleDataset)))) 6 = 1 /\
  fst (nextPoint (Some sampleDataset) 7 noon) =
    replay noon (Equipment.mk "Valve-2" "Valve" 60 4 75 90)%Q.
Proof.
  pose proof (@playback_index_wraps sampleDataset sampleRows
                (Equipment.mk "" "" 0 0 0 0)%Q 1
                [noon; noon; noon; noon; noon; noon; noon] noon
                eq_refl ltac:(simpl; lia) eq_refl) as H.
  simpl in H. destruct H as (_ & H1 & _ & H2 & _).
  split; [exact H1 | exact H2].
Defined.

(* ================================================================== *)
(** * Tab selection *)
(* ================================================================== *)

Lemma realtime_not_a_tab : ~ In "realtime" tabs.
Proof. simpl. intros [H|[H|[H|[H|[]]]]]; discriminate H. Qed.

Lemma tab_stops_simulation st :
  In (activeTab st) tabs -> simulationRunning st = false.
Proof.
  intros H. unfold simulationRunning.
  destruct (String.eqb_spec (activeTab st) "realtime") as [E|_]; [|reflexivity].
  rewrite E in H. destruct (realtime_not_a_tab H).
Qed.

Lemma receiveUpload_activeTab u st :
  activeTab (receiveUpload u st) = activeTab st.
Proof. unfold receiveUpload, resetSimulation. simpl. destruct u; reflexivity. Qed.

Lemma receiveUpload_idle u st :
  realtimeData st = [] -> playbackIndex st = 0 ->
  realtimeData (receiveUpload u st) = [] /\
  playbackIndex (receiveUpload u st) = 0.
Proof.
  intros Hr Hi. unfold receiveUpload, resetSimulation. simpl.
  destruct u; simpl; auto.
Qed.

Lemma reachable_idle u st :
  reachable u st ->
  In (activeTab st) tabs /\ realtimeData st = [] /\ playbackIndex st = 0.
Proof.
  induction 1 as [|st st' Hreach (Htab & Hbuf & Hidx) Hstep].
  - simpl. auto.
  - destruct Hstep as [st t _ Ht | st _ | st h | st u' | st c Hrun].
    + simpl. auto.
    + simpl. auto 6.
    + simpl. auto.
    + rewrite receiveUpload_activeTab.
      split; [exact Htab | apply receiveUpload_idle; assumption].
    + rewrite (tab_stops_simulation st Htab) in Hrun. discriminate Hrun.
Qed.

(** C9. Whatever the user clicks, starting from the mounted component,
    [activeTab] stays one of overview, analytics, comparison, history; it
    is never ['realtime'], so the condition that creates the tick
    interval never holds, and buffer and index stay as mounted. *)
Theorem realtime_tab_unreachable :
  forall (u : option Dataset) (st : Dashboard),
    reachable u st ->
    In (activeTab st) ["overview"; "analytics"; "comparison"; "history"] /\
    activeTab st <> "realtime" /\
    simulationRunning st = false /\
    (forall c : Clock, ~ (simulationRunning st = true /\ step st (tick c st))) /\
    realtimeData st = [] /\
    playbackIndex st = 0.
Proof.
  intros u st Hreach.
  destruct (reachable_idle Hreach) as (Htab & Hbuf & Hidx).
  pose proof (tab_stops_simulation st Htab) as Hoff.
  repeat split; auto.
  - intros E. rewrite E in Htab. exact (realtime_not_a_tab Htab).
  - intros c [Hrun _]. rewrite Hoff in Hrun. discriminate Hrun.
Qed.

Lemma realtime_tab_unreachable_witness :
  reachable None (setActiveTab "analytics" (setActiveTab "history" (mount None))) /\
  simulationRunning
    (setActiveTab "analytics" (setActiveTab "history" (mount None))) = false.
Proof.
  assert (H : reachable None
                (setActiveTab "analytics" (setActiveTab "history" (mount None)))).
  { eapply reach_step.
    - eapply reach_step; [apply reach_mount|].
      apply step_view_history. reflexivity.
    - apply step_tab; [reflexivity|]. simpl. auto. }
  split; [exact H|].
  exact (proj1 (proj2 (proj2 (realtime_tab_unreachable H)))).
Defined.

(* ================================================================== *)
(** * Sorting with a comparator that subtracts keys *)
(* ================================================================== *)

Lemma ltb_lt a b : JS.ltb a b = true <-> (a < b)%Q.
Proof.
  unfold JS.ltb. rewrite negb_true_iff. split.
  - intros H. apply Qnot_le_lt. intros Hle.
    apply Qle_bool_iff in Hle. congruence.
  - intros H. destruct (Qle_bool b a) eqn:E; [|reflexivity].
    apply Qle_bool_iff in E. exfalso. exact (Qlt_not_le _ _ H E).
Qed.

Lemma ltb_ge a b : JS.ltb a b = false <-> (b <= a)%Q.
Proof.
  unfold JS.ltb. rewrite negb_false_iff. apply Qle_bool_iff.
Qed.

Section SortFacts.
Variable A : Type.
Variable compareFn : A -> A -> Q.
Variable key : A -> Q.

(** The comparator is positive exactly when its first argument has the
    larger key. *)
Hypothesis compare_key :
  forall x y, JS.gtb (compareFn x y) 0%Q = true <-> (key y < key x)%Q.

Lemma in_firstn_in n (l : list A) a : In a (firstn n l) -> In a l.
Proof.
  intros H. rewrite <- (firstn_skipn n l). apply in_or_app. left. exact H.
Qed.

Lemma in_skipn_in n (l : list A) a : In a (skipn n l) -> In a l.
Proof.
  intros H. rewrite <- (firstn_skipn n l). apply in_or_app. right. exact H.
Qed.

Lemma compare_key_false x y :
  JS.gtb (compareFn x y) 0%Q = false <-> (key x <= key y)%Q.
Proof.
  split.
  - intros H. apply Qnot_lt_le. intros Hlt.
    apply compare_key in Hlt. congruence.
  - intros H. destruct (JS.gtb (compareFn x y) 0%Q) eqn:E; [|reflexivity].
    apply compare_key in E. exfalso. exact (Qlt_not_le _ _ E H).
Qed.

Lemma insert_Permutation x l : Permutation (x :: l) (JS.insert compareFn x l).
Proof.
  induction l as [|y l IH]; simpl; [reflexivity|].
  destruct (JS.gtb (compareFn x y) 0%Q); [|reflexivity].
  rewrite perm_swap. apply perm_skip. exact IH.
Qed.

Lemma Array_sort_Permutation l : Permutation l (JS.Array_sort compareFn l).
Proof.
  induction l as [|x l IH]; simpl; [reflexivity|].
  rewrite <- insert_Permutation. apply perm_skip. exact IH.
Qed.

Lemma Array_sort_length l :
  List.length (JS.Array_sort compareFn l) = List.length l.
Proof. symmetry. apply Permutation_length, Array_sort_Permutation. Qed.

Lemma insert_sorted x l :
  StronglySorted (ascending key) l ->
  StronglySorted (ascending key) (JS.insert compareFn x l).
Proof.
  induction 1 as [|y l Hsorted IH Hall]; simpl.
  - constructor; constructor.
  - destruct (JS.gtb (compareFn x y) 0%Q) eqn:E.
    + apply compare_key in E. constructor; [exact IH|].
      apply (Permutation_Forall (insert_Permutation x l)).
      constructor; [apply Qlt_le_weak; exact E | exact Hall].
    + apply compare_key_false in E.
      constructor; [constructor; assumption|].
      constructor; [exact E|].
      eapply Forall_impl; [|exact Hall].
      intros z Hz. unfold ascending in *. eapply Qle_trans; eassumption.
Qed.

Lemma Array_sort_sorted l : StronglySorted (ascending key) (JS.Array_sort compareFn l).
Proof.
  induction l as [|x l IH]; simpl; [constructor|].
  apply insert_sorted. exact IH.
Qed.

(** Sorting what is already in order changes nothing. *)
Lemma Array_sort_fixed l :
  StronglySorted (ascending key) l -> JS.Array_sort compareFn l = l.
Proof.
  induction 1 as [|x l Hsorted IH Hall]; simpl; [reflexivity|].
  rewrite IH. destruct l as [|y l]; simpl; [reflexivity|].
  inversion Hall as [|? ? Hxy _]; subst.
  apply compare_key_false in Hxy. rewrite Hxy. reflexivity.
Qed.

Lemma Array_sort_idempotent l :
  JS.Array_sort compareFn (JS.Array_sort compareFn l) = JS.Array_sort compareFn l.
Proof. apply Array_sort_fixed, Array_sort_sorted. Qed.

(** Stability: records with one and the same key keep their order. *)
Lemma insert_tied k x l :
  filter (tied key k) (JS.insert compareFn x l) = filter (tied key k) (x :: l).
Proof.
  induction l as [|y l IH]; [reflexivity|].
  cbn [JS.insert]. destruct (JS.gtb (compareFn x y) 0%Q) eqn:E; [|reflexivity].
  apply compare_key in E.
  cbn [filter] in *. rewrite IH.
  destruct (tied key k x) eqn:Ex; destruct (tied key k y) eqn:Ey; try reflexivity.
  unfold tied in Ex, Ey. apply Qeq_bool_iff in Ex, Ey.
  exfalso. rewrite Ex, Ey in E. exact (Qlt_irrefl _ E).
Qed.

Lemma Array_sort_stable k l :
  filter (tied key k) (JS.Array_sort compareFn l) = filter (tied key k) l.
Proof.
  induction l as [|x l IH]; [reflexivity|].
  cbn [JS.Array_sort fold_right]. rewrite insert_tied.
  cbn [filter]. fold (JS.Array_sort compareFn l). rewrite IH. reflexivity.
Qed.

Lemma filter_firstn (p : A -> bool) n l :
  exists m, filter p (firstn n l) = firstn m (filter p l).
Proof.
  revert n. induction l as [|x l IH]; intros [|n]; simpl;
    try (exists 0; reflexivity).
  destruct (IH n) as [m Hm]. destruct (p x).
  - exists (S m). simpl. rewrite Hm. reflexivity.
  - exists m. exact Hm.
Qed.

(** The first [n] of the sorted list are [n] smallest: nothing left over
    has a smaller key. *)
Lemma sorted_prefix_least n l a b :
  StronglySorted (ascending key) l ->
  In a (firstn n l) -> In b (skipn n l) -> ascending key a b.
Proof.
  intros Hs. revert n. induction Hs as [|x l Hsorted IH Hall]; intros n Ha Hb.
  - destruct n; destruct Ha.
  - destruct n as [|n]; [destruct Ha|]. simpl in Ha, Hb.
    destruct Ha as [->|Ha].
    + rewrite Forall_forall in Hall. apply Hall.
      apply (in_skipn_in n). exact Hb.
    + exact (IH n Ha Hb).
Qed.

Lemma firstn_sorted n l :
  StronglySorted (ascending key) l -> StronglySorted (ascending key) (firstn n l).
Proof.
  intros Hs. revert n. induction Hs as [|x l Hsorted IH Hall]; intros [|n];
    simpl; try constructor; auto.
  rewrite Forall_forall in *. intros z Hz. apply Hall.
  eapply in_firstn_in; eauto.
Qed.
Lemma tied_refl x : tied key (key x) x = true.
Proof. unfold tied. apply Qeq_bool_iff. reflexivity. Qed.

Lemma tied_head_in k x l l' :
  tied key k x = true -> filter (tied key k) (x :: l) = filter (tied key k) l' -> In x l'.
Proof.
  intros Hx Hf. cbn [filter] in Hf. rewrite Hx in Hf.
  assert (Hin : In x (filter (tied key k) l')) by (rewrite <- Hf; left; reflexivity).
  apply filter_In in Hin. exact (proj1 Hin).
Qed.

(** An ascending list is determined by the order of its records within
    each key: two ascending lists that agree on that are equal. *)
Lemma sorted_stable_unique l1 l2 :
  StronglySorted (ascending key) l1 -> StronglySorted (ascending key) l2 ->
  (forall k, filter (tied key k) l1 = filter (tied key k) l2) ->
  l1 = l2.
Proof.
  intros H1. revert l2.
  induction H1 as [|x l1 Hs1 IH Hall1]; intros l2 H2 Hf.
  - destruct l2 as [|y l2]; [reflexivity|].
    specialize (Hf (key y)). cbn [filter] in Hf.
    rewrite tied_refl in Hf. discriminate Hf.
  - destruct H2 as [|y l2 Hs2 Hall2].
    + specialize (Hf (key x)). cbn [filter] in Hf.
      rewrite tied_refl in Hf. discriminate Hf.
    + assert (Hxy : (key x == key y)%Q).
      { apply Qle_antisym.
        - pose proof (tied_head_in _ _ _ _ (tied_refl y) (eq_sym (Hf (key y)))) as Hin.
          destruct Hin as [->|Hin]; [apply Qle_refl|].
          rewrite Forall_forall in Hall1. exact (Hall1 _ Hin).
        - pose proof (tied_head_in _ _ _ _ (tied_refl x) (Hf (key x))) as Hin.
          destruct Hin as [->|Hin]; [apply Qle_refl|].
          rewrite Forall_forall in Hall2. exact (Hall2 _ Hin). }
      assert (Hty : tied key (key x) y = true).
      { unfold tied. apply Qeq_bool_iff. symmetry. exact Hxy. }
      assert (Heq : x = y).
      { pose proof (Hf (key x)) as H. cbn [filter] in H.
        rewrite tied_refl, Hty in H. congruence. }
      subst y. f_equal. apply IH; [exact Hs2|].
      intros k. specialize (Hf k). cbn [filter] in Hf.
      destruct (tied key k x); congruence.
Qed.

(** Whatever algorithm the engine runs, an ascending, stable
    rearrangement of [l] is the list [Array_sort] computes. *)
Lemma Array_sort_determined l l' :
  StronglySorted (ascending key) l' ->
  (forall k, filter (tied key k) l' = filter (tied key k) l) ->
  l' = JS.Array_sort compareFn l.
Proof.
  intros Hs Hf. apply sorted_stable_unique;
    [exact Hs | apply Array_sort_sorted |].
  intros k. rewrite Array_sort_stable. apply Hf.
Qed.
End SortFacts.

(* ================================================================== *)
(** * Watchlist *)
(* ================================================================== *)

Lemma byHealth_key x y :
  JS.gtb (byHealth x y) 0%Q = true <->
  (Equipment.health_score y < Equipment.health_score x)%Q.
Proof.
  unfold JS.gtb, byHealth. rewrite ltb_lt.
  symmetry. apply Qlt_minus_iff.
Qed.

Lemma watchlist_store rows :
  snd (watchlist rows) = JS.Array_sort byHealth rows.
Proof.
  unfold watchlist. cbn [snd].
  rewrite !(Array_sort_idempotent _ _ byHealth_key). reflexivity.
Qed.

Lemma watchlist_view rows :
  fst (watchlist rows) =
  mkWatchlist (map Equipment.name (watched rows))
              (map Equipment.health_score (watched rows))
              (map barColor (watched rows)).
Proof.
  unfold watchlist, watched. cbn [fst].
  rewrite !(Array_sort_idempotent _ _ byHealth_key). reflexivity.
Qed.

Lemma barColor_critical e :
  barColor e = critical <-> (Equipment.health_score e < 50)%Q.
Proof.
  unfold barColor. rewrite <- ltb_lt.
  destruct (JS.ltb (Equipment.health_score e) 50%Q); split; intros H;
    try reflexivity; discriminate H.
Qed.

Lemma barColor_warning e :
  barColor e = warning <-> (50 <= Equipment.health_score e)%Q.
Proof.
  unfold barColor. rewrite <- ltb_ge.
  destruct (JS.ltb (Equipment.health_score e) 50%Q); split; intros H;
    try reflexivity; discriminate H.
Qed.

(** C5. The watchlist shows the first five rows (all of them when there
    are fewer) of the rows sorted by ascending health score: they are in
    ascending order, no row left out has a lower score than a row shown,
    rows with equal scores appear in their original order, earliest
    first; names, scores and colours are those of the rows shown, in
    that order; a bar is critical exactly when the score is below 50 and
    warning from 50 up.  For the scores 10, 90, 5, 50, 99, 30 the chart
    reads 5, 10, 30, 50, 90. *)
Theorem watchlist_five_lowest :
  forall rows : list Equipment.t,
    let w := fst (watchlist rows) in
    let shown := watched rows in
    labels w = map Equipment.name shown /\
    data w = map Equipment.health_score shown /\
    backgroundColor w = map barColor shown /\
    List.length shown = Nat.min 5 (List.length rows) /\
    (exists rest : list Equipment.t,
        Permutation rows (shown ++ rest) /\
        forall a b, In a shown -> In b rest ->
                    (Equipment.health_score a <= Equipment.health_score b)%Q) /\
    StronglySorted (ascending Equipment.health_score) shown /\
    (forall k : Q, exists m : nat,
        filter (tied Equipment.health_score k) shown =
        firstn m (filter (tied Equipment.health_score k) rows)) /\
    (forall e : Equipment.t,
        (barColor e = critical <-> (Equipment.health_score e < 50)%Q) /\
        (barColor e = warning <-> (50 <= Equipment.health_score e)%Q)) /\
    map Equipment.health_score sampleRows = [10; 90; 5; 50; 99; 30]%Q /\
    fst (watchlist sampleRows) =
      mkWatchlist
        ["Reactor-3"; "Pump-1"; "Valve-6"; "Pump-4"; "Valve-2"]
        [5; 10; 30; 50; 90]%Q
        [critical; critical; critical; warning; warning].
Proof.
  intros rows w shown. unfold w. rewrite watchlist_view. cbn [labels data backgroundColor].
  pose proof (Array_sort_sorted _ _ byHealth_key rows) as Hsorted.
  repeat split; try reflexivity.
  - unfold shown, watched, JS.slice0.
    rewrite length_firstn, Array_sort_length. reflexivity.
  - exists (skipn 5 (JS.Array_sort byHealth rows)). split.
    + unfold shown, watched, JS.slice0. rewrite firstn_skipn.
      apply Array_sort_Permutation.
    + intros a b Ha Hb.
      exact (sorted_prefix_least 5 a b Hsorted Ha Hb).
  - apply firstn_sorted. exact Hsorted.
  - intros k. unfold shown, watched, JS.slice0.
    destruct (filter_firstn (tied Equipment.health_score k) 5
                (JS.Array_sort byHealth rows)) as [m Hm].
    exists m. rewrite Hm, (Array_sort_stable _ _ byHealth_key). reflexivity.
  - apply barColor_critical.
  - apply barColor_critical.
  - apply barColor_warning.
  - apply barColor_warning.
Qed.

(** C3 fails on the watchlist: rendering [OverviewTab] reorders the
    array [equipment_data] of the dataset it was given.  For the two rows
    with scores 90 and 10 the array holds them in the opposite order
    afterwards, and the trend chart of the same render already reads the
    reordered array. *)
Theorem watchlist_reorders_equipment_data :
  OverviewTab (Some twoRowDataset) =
    Rendered
      (mkOverview
         (mkStatsCard "System Health" "50%" "red")
         ([], [])
         (mkWatchlist ["Pump-1"; "Valve-2"] [10; 90]%Q [critical; warning])
         (mkTrendOverview ["Pump-1"; "Valve-2"] [5; 4]%Q [120; 60]%Q),
       rev twoRows) /\
  equipment_data twoRowDataset = Some twoRows /\
  rev twoRows <> twoRows /\
  map Equipment.name twoRows = ["Valve-2"; "Pump-1"] /\
  forall rows : list Equipment.t,
    snd (watchlist rows) = JS.Array_sort byHealth rows.
Proof.
  split; [vm_compute; reflexivity|].
  split; [reflexivity|].
  split; [intros H; discriminate H|].
  split; [reflexivity|].
  apply watchlist_store.
Qed.

(* ================================================================== *)
(** * History trend *)
(* ================================================================== *)

Lemma byDate_key x y :
  JS.gtb (byDate x y) 0%Q = true <->
  (inject_Z (uploaded_at y) < inject_Z (uploaded_at x))%Q.
Proof.
  unfold JS.gtb, byDate. rewrite ltb_lt.
  rewrite <- Zlt_Qlt. change 0%Q with (inject_Z 0). rewrite <- Zlt_Qlt. lia.
Qed.

Lemma StronglySorted_weaken (A : Type) (R R' : A -> A -> Prop) l :
  (forall a b, R a b -> R' a b) -> StronglySorted R l -> StronglySorted R' l.
Proof.
  intros HR. induction 1 as [|x l Hs IH Hall]; constructor; auto.
  eapply Forall_impl; [|exact Hall]. auto.
Qed.

Lemma tied_date t e :
  tied (fun h => inject_Z (uploaded_at h)) (inject_Z t) e =
  (uploaded_at e =? t)%Z.
Proof.
  unfold tied. apply eq_true_iff_eq.
  rewrite Qeq_bool_iff, Z.eqb_eq. apply inject_Z_injective.
Qed.

Lemma sameDay_sameLabel tz t1 t2 :
  dayOf tz t1 = dayOf tz t2 ->
  toLocaleDateString tz t1 = toLocaleDateString tz t2.
Proof. intros H. unfold toLocaleDateString. rewrite H. reflexivity. Qed.

(** C8. For a non-empty history the trend view works on a sorted copy:
    the stored list is returned as it was; the copy holds the same
    entries in ascending order of upload instant, entries of one instant
    in their stored order; there is one label per entry, which depends on
    the calendar day only, and the three series list the averages of the
    same entries in the same order.  The entries of 2024-03-01 and
    2024-01-01, stored in that order, are charted January first.  The
    empty history gives the placeholder element. *)
Theorem history_trend_sorted_copy :
  forall (tz : Z) (h : Dataset) (hs : list Dataset),
    (exists sortedHistory : list Dataset,
        ComparisonTab tz (h :: hs) =
          (Trends (map (fun e => toLocaleDateString tz (uploaded_at e)) sortedHistory)
                  (map avg_health_score sortedHistory)
                  (map avg_flowrate sortedHistory)
                  (map avg_pressure sortedHistory)
                  (List.length (h :: hs)),
           h :: hs) /\
        Permutation (h :: hs) sortedHistory /\
        List.length sortedHistory = List.length (h :: hs) /\
        StronglySorted (fun a b => (uploaded_at a <= uploaded_at b)%Z)
                       sortedHistory /\
        forall t : Z,
          filter (fun e => (uploaded_at e =? t)%Z) sortedHistory =
          filter (fun e => (uploaded_at e =? t)%Z) (h :: hs)) /\
    ComparisonTab tz [] = (NoHistory, []) /\
    (forall t1 t2 : Z,
        dayOf tz t1 = dayOf tz t2 ->
        toLocaleDateString tz t1 = toLocaleDateString tz t2) /\
    ComparisonTab 0 [march; january] =
      (Trends ["1/1/2024"; "3/1/2024"]
              [JS.number 81; JS.number 47]
              [JS.number 100; JS.number 110]
              [JS.number 6; JS.number 5]
              2,
       [march; january]).
Proof.
  intros tz h hs. split; [|split; [reflexivity|split]].
  - exists (JS.Array_sort byDate (h :: hs)).
    split; [reflexivity|].
    split; [apply Array_sort_Permutation|].
    split; [apply Array_sort_length|].
    split.
    + eapply StronglySorted_weaken;
        [|exact (Array_sort_sorted _ _ byDate_key (h :: hs))].
      intros a b Hab. rewrite Zle_Qle. exact Hab.
    + intros t.
      rewrite <- !(filter_ext _ _ (tied_date t)).
      apply (Array_sort_stable _ _ byDate_key).
  - apply sameDay_sameLabel.
  - vm_compute. reflexivity.
Qed.

(* ================================================================== *)
(** * System Health card *)
(* ================================================================== *)

Lemma truthy_number q : ~ (q == 0)%Q -> JS.truthy (JS.number q) = true.
Proof.
  intros H. simpl. destruct (Qeq_bool q 0) eqn:E; [|reflexivity].
  apply Qeq_bool_iff in E. contradiction.
Qed.

Lemma falsy_zero q : (q == 0)%Q -> JS.truthy (JS.number q) = false.
Proof.
  intros H. simpl. apply Qeq_bool_iff in H. rewrite H. reflexivity.
Qed.

Lemma round_half_up_nearest x :
  (0 <= x)%Q ->
  (0 <= JS.round_half_up x)%Z /\
  (inject_Z (JS.round_half_up x) <= x + (1 # 2))%Q /\
  (x + (1 # 2) < inject_Z (JS.round_half_up x) + 1)%Q.
Proof.
  intros Hx. unfold JS.round_half_up. repeat split.
  - change 0%Z with (Qfloor 0). apply Qfloor_resp_le.
    apply Qle_trans with x; [exact Hx|].
    rewrite <- (Qplus_0_r x) at 1. apply Qplus_le_r. discriminate.
  - apply Qfloor_le.
  - pose proof (Qlt_floor (x + (1 # 2))) as H.
    rewrite inject_Z_plus in H. exact H.
Qed.

(** C10. The System Health card prints [85%] when [avg_health_score] is
    missing, [null] or zero, whatever the colour, which always comes from
    the comparison of the raw field with 70 (so a zero score is printed
    as [85%] in red).  A non-zero score is printed as the nearest integer
    (halves away from zero) followed by [%]. *)
Theorem system_health_card_fallback :
  forall q : Q,
    ~ (q == 0)%Q ->
    (Qabs q < 1000000000000000000000)%Q ->
    (exists n : Z,
        (0 <= n)%Z /\
        (inject_Z n <= Qabs q + (1 # 2))%Q /\
        (Qabs q + (1 # 2) < inject_Z n + 1)%Q /\
        value (systemHealth (JS.number q)) =
          (((if JS.ltb q 0%Q then "-" else "") ++ JS.String_of_N (Z.to_N n))
             ++ "%")%string) /\
    value (systemHealth (JS.number q)) = (JS.toFixed0 q ++ "%")%string /\
    color (systemHealth (JS.number q)) =
      (if JS.ltb q 70%Q then "red" else "emerald") /\
    (forall z : Q, (z == 0)%Q ->
        value (systemHealth (JS.number z)) = "85%" /\
        color (systemHealth (JS.number z)) = "red") /\
    value (systemHealth JS.undefined) = "85%" /\
    color (systemHealth JS.undefined) = "emerald" /\
    value (systemHealth JS.null) = "85%" /\
    color (systemHealth JS.null) = "red" /\
    (forall v : JS.value,
        color (systemHealth v) =
        (if JS.value_ltb v 70%Q then "red" else "emerald")).
Proof.
  intros q Hq _.
  assert (Hval : value (systemHealth (JS.number q)) = (JS.toFixed0 q ++ "%")%string).
  { unfold systemHealth, JS.or_default. cbn [value].
    rewrite (truthy_number Hq). reflexivity. }
  split.
  { destruct (round_half_up_nearest (Qabs_nonneg q)) as (H0 & Hlo & Hhi).
    exists (JS.round_half_up (Qabs q)). repeat split; auto. }
  split; [exact Hval|].
  split; [reflexivity|].
  split.
  { intros z Hz. unfold systemHealth, JS.or_default. cbn [value color].
    rewrite (falsy_zero Hz). split; [reflexivity|].
    unfold JS.value_ltb.
    assert (Hlt : JS.ltb z 70%Q = true).
    { apply ltb_lt. rewrite Hz. reflexivity. }
    rewrite Hlt. reflexivity. }
  repeat split; reflexivity.
Qed.

Lemma system_health_card_fallback_witness :
  value (systemHealth (JS.number (145 # 2))) = "73%" /\
  color (systemHealth (JS.number (145 # 2))) = "emerald".
Proof.
  assert (H1 : ~ (145 # 2 == 0)%Q) by (intros H; discriminate H).
  assert (H2 : (Qabs (145 # 2) < 1000000000000000000000)%Q) by reflexivity.
  destruct (system_health_card_fallback H1 H2) as (_ & Hv & Hc & _).
  split; [exact Hv | exact Hc].
Defined.

(* ================================================================== *)
(** * History store *)
(* ================================================================== *)

(** C7. [handleDeleteDataset] first asks for confirmation.  Declined: it
    does nothing else and the state is as before.  Confirmed: it sends
    the delete request; when that succeeds it goes on with
    [fetchHistory], which replaces the stored list by the answer or logs
    and leaves it; when it fails it logs, alerts, sends no history
    request and leaves the state as before.  No trace has a delete
    request without a confirmed prompt before it. *)
Theorem delete_asks_then_refreshes :
  forall (id : N) (confirmed deleted : bool) (res : option (list Dataset))
         (data : list Dataset) (st : Dashboard),
    let ask :=
      Confirm ("Are you sure you want to delete dataset #" ++ JS.String_of_N id ++
               "? This action cannot be undone.")%string in
    let request := Delete ("datasets/" ++ JS.String_of_N id ++ "/")%string in
    handleDeleteDataset id false deleted res st = ([ask], st) /\
    handleDeleteDataset id true true res st =
      (ask :: request :: fst (fetchHistory res st), snd (fetchHistory res st)) /\
    fetchHistory (Some data) st = ([Get "datasets/history/"], setHistory data st) /\
    history (snd (handleDeleteDataset id true true (Some data) st)) = data /\
    fetchHistory None st =
      ([Get "datasets/history/"; ConsoleError "Failed to fetch history"], st) /\
    handleDeleteDataset id true false res st =
      ([ask; request; ConsoleError "Failed to delete dataset";
        Alert "Failed to delete dataset. Please try again."], st) /\
    (exists rest,
        fst (handleDeleteDataset id confirmed deleted res st) = ask :: rest /\
        forall url, In (Delete url) rest -> confirmed = true) /\
    alerts (fst (handleDeleteDataset id false deleted res st)) = [] /\
    alerts (fst (handleDeleteDataset id true true res st)) = [] /\
    alerts (fst (handleDeleteDataset id true false res st)) =
      ["Failed to delete dataset. Please try again."].
Proof.
  intros id confirmed deleted res data st ask request.
  split; [reflexivity|].
  split.
  { unfold handleDeleteDataset. cbn [negb].
    destruct (fetchHistory res st) as [es st']. reflexivity. }
  split; [reflexivity|].
  split; [reflexivity|].
  split; [reflexivity|].
  split; [reflexivity|].
  split.
  { destruct confirmed.
    - destruct deleted.
      + exists (request :: fst (fetchHistory res st)). split; [|reflexivity].
        unfold handleDeleteDataset. cbn [negb].
        destruct (fetchHistory res st) as [es st']. reflexivity.
      + eexists. split; [reflexivity|reflexivity].
    - exists []. split; [reflexivity|]. intros url []. }
  split; [reflexivity|].
  split; [|reflexivity].
  unfold handleDeleteDataset. cbn [negb].
  destruct res; reflexivity.
Qed.

(* ================================================================== *)
(** * Report retrieval *)
(* ================================================================== *)

Lemma maybeError_spec b :
  maybeError b = true <->
  blob_type b = "application/json" \/ (blob_size b < 500)%N.
Proof.
  unfold maybeError. rewrite orb_true_iff, String.eqb_eq, N.ltb_lt. reflexivity.
Qed.

Lemma json_array_ind (P : json -> Prop) :
  P JNull ->
  (forall b, P (JBool b)) ->
  (forall n, P (JNumber n)) ->
  (forall s, P (JString s)) ->
  (forall l, Forall P l -> P (JArray l)) ->
  (forall m, P (JObject m)) ->
  forall v, P v.
Proof.
  intros Hnull Hbool Hnum Hstr Harr Hobj.
  exact (fix go (v : json) : P v :=
           match v with
           | JNull => Hnull
           | JBool b => Hbool b
           | JNumber n => Hnum n
           | JString s => Hstr s
           | JArray l =>
               Harr l ((fix all (l : list json) : Forall P l :=
                          match l with
                          | [] => Forall_nil P
                          | e :: l' => Forall_cons e (go e) (all l')
                          end) l)
           | JObject m => Hobj m
           end).
Qed.

Ltac split_completion :=
  repeat match goal with
         | |- context [match ?X with Normal _ => _ | Throws => _ end] =>
             lazymatch X with
             | match _ with Normal _ => _ | Throws => _ end => fail
             | _ => destruct X
             end
         end.

Lemma ToString_cons_throws e l :
  ToString (JArray (e :: l)) = Throws <->
  match e with JNull => Normal "" | _ => ToString e end = Throws \/
  ToString (JArray l) = Throws.
Proof.
  cbn [ToString].
  destruct (match e with JNull => Normal "" | _ => ToString e end) as [t|].
  - split_completion; split; intros H; try discriminate H;
      try (destruct H as [H|H]; discriminate H); auto.
  - split; auto.
Qed.

Lemma ToString_throws :
  forall v : json, ToString v = Throws <-> unprintable v = true.
Proof.
  induction v as [|b|n|s|l Hl|m] using json_array_ind;
    try (destruct b); try (split; intros H; discriminate H).
  - induction Hl as [|e l He Hl IHl].
    + split; intros H; discriminate H.
    + rewrite ToString_cons_throws. cbn [unprintable existsb].
      rewrite orb_true_iff. cbn [unprintable] in IHl. rewrite IHl.
      assert (Hel : match e with JNull => Normal "" | _ => ToString e end = Throws
                    <-> unprintable e = true).
      { destruct e; try exact He. split; intros H; discriminate H. }
      rewrite Hel. reflexivity.
  - cbn [ToString unprintable].
    destruct (lookup "toString" m); split; intros H;
      try reflexivity; discriminate H.
Qed.

(** The code departs from C4 as worded on three responses that parse.
    The body [null]: the wording predicts the generic alert and no file,
    the code saves a file and alerts nothing.  A body whose [error]
    member is the empty string: the wording predicts the member's value
    in the alert, the code prints the generic message.  A body whose
    [error] member is an object with its own [toString]: the wording
    predicts an alert, the code saves a file. *)
Lemma report_wording_refuted :
  userSees (handleDownloadReport 7 (Resolved blobNull)) =
    ([], ["Analysis_Report_#7.pdf"]) /\
  fetchReport_spec 7 blobNull =
    (["Report Error: Generation failed on server."], []) /\
  userSees (handleDownloadReport 7 (Resolved blobEmptyError)) =
    (["Report Error: Generation failed on server."], []) /\
  fetchReport_spec 7 blobEmptyError = (["Report Error: "], []) /\
  userSees (handleDownloadReport 7 (Resolved blobOwnToString)) =
    ([], ["Analysis_Report_#7.pdf"]) /\
  fst (fetchReport_spec 7 blobOwnToString) <> [] /\
  ~ (forall (id : N) (b : Blob),
        userSees (handleDownloadReport id (Resolved b)) = fetchReport_spec id b).
Proof.
  repeat split; try reflexivity.
  - intros H. discriminate H.
  - intros H. specialize (H 7%N blobEmptyError). vm_compute in H. discriminate H.
Qed.

(** C4, amended.  A response is taken for a possible error exactly when
    its type is [application/json] or its size is below 500.  If so and
    its text parses to a value other than [null], the message is the
    [error] member converted to a string when there is one and it is
    truthy, and the generic message otherwise; when that conversion
    succeeds the user gets one alert, [Report Error: ] followed by the
    message, and no file.  The conversion fails exactly on an object
    with a member of its own named [toString] and on an array holding
    such a value; nothing is stated for that case, nor for the body
    [null].  If the text does not parse, the file is saved as
    [Analysis_Report_#<id>.pdf] and nothing is alerted.  Any other
    response is saved under that name directly. *)
Theorem report_classified_before_saving :
  forall (id : N) (b : Blob),
    let seen := userSees (handleDownloadReport id (Resolved b)) in
    (maybeError b = true <->
     blob_type b = "application/json" \/ (blob_size b < 500)%N) /\
    match maybeError b, blob_json b with
    | true, Some JNull => True
    | true, Some v =>
        match
          match error_field v with
          | Some e =>
              if json_truthy e then ToString e
              else Normal "Generation failed on server."
          | None => Normal "Generation failed on server."
          end
        with
        | Normal message => seen = ([("Report Error: " ++ message)%string], [])
        | Throws => True
        end
    | true, None => seen = ([], [reportFilename id])
    | false, _ => seen = ([], [reportFilename id])
    end /\
    (forall e : json, ToString e = Throws <-> unprintable e = true) /\
    (forall s : string, ToString (JString s) = Normal s) /\
    (forall n : string, ToString (JNumber n) = Normal n) /\
    reportFilename id = ("Analysis_Report_#" ++ JS.String_of_N id ++ ".pdf")%string /\
    userSees (handleDownloadReport 7 (Resolved blobPdf)) =
      ([], ["Analysis_Report_#7.pdf"]) /\
    userSees (handleDownloadReport 7 (Resolved blobFailed)) =
      (["Report Error: failed"], []) /\
    userSees (handleDownloadReport 7 (Resolved blobSmall)) =
      ([], ["Analysis_Report_#7.pdf"]).
Proof.
  intros id b seen. split; [apply maybeError_spec|].
  split; [|split; [apply ToString_throws|repeat split; reflexivity]].
  unfold seen, handleDownloadReport, onload.
  destruct (maybeError b); [|reflexivity].
  destruct (blob_json b) as [v|]; [|reflexivity].
  destruct v as [|x|n|s|l|m]; try exact I; try reflexivity.
  cbn [get_error error_field errorMessage].
  unfold errorMessage.
  destruct (lookup "error" m) as [e|]; [|reflexivity].
  destruct (json_truthy e); [|reflexivity].
  destruct (ToString e); [reflexivity|exact I].
Qed.

(* ================================================================== *)
(** * Further properties of playback *)
(* ================================================================== *)

Lemma arrivals_nth cs :
  forall st d r rs i c0 p0,
    uploadData st = Some d ->
    playable (Some d) = Some (r, rs) ->
    i < List.length cs ->
    nth i (arrivals cs st) p0 =
    replay (nth i cs c0)
           (nth ((playbackIndex st + i) mod List.length (r :: rs)) (r :: rs) r).
Proof.
  induction cs as [|c cs IH]; intros st d r rs i c0 p0 Hu Hp Hi.
  - simpl in Hi. lia.
  - destruct i as [|i]; cbn [arrivals nth].
    + rewrite Hu. erewrite nextPoint_replay by exact Hp. cbn [fst].
      unfold readIndex. rewrite Nat.add_0_r. reflexivity.
    + simpl in Hi.
      rewrite (@IH (tick c st) d r rs i c0 p0);
        [|rewrite tick_uploadData; exact Hu|exact Hp|lia].
      rewrite tick_advance, Hu, Hp.
      replace (playbackIndex st + 1 + i) with (playbackIndex st + S i) by lia.
      reflexivity.
Qed.

(** Ticks replay the rows of the array as it is when they run, in a
    cycle: tick [i] reads position [i mod N]. *)
Lemma arrivals_follow_array :
  forall (d : Dataset) (rows : list Equipment.t) (r0 : Equipment.t)
         (cs : list Clock) (c0 : Clock) (p0 : Point.t),
    equipment_data d = Some rows ->
    1 <= List.length rows ->
    (forall i, i < List.length cs ->
       nth i (arrivals cs (mount (Some d))) p0 =
       replay (nth i cs c0) (nth (i mod List.length rows) rows r0)) /\
    (forall j, j < Nat.min 20 (List.length cs) ->
       nth j (realtimeData (ticks cs (mount (Some d)))) p0 =
       replay (nth (List.length cs - 20 + j) cs c0)
              (nth ((List.length cs - 20 + j) mod List.length rows) rows r0)).
Proof.
  intros d rows r0 cs c0 p0 Hd Hlen.
  destruct (playable_rows d Hd Hlen) as (r & rs & Hrows & Hp).
  assert (Hall : forall i, i < List.length cs ->
            nth i (arrivals cs (mount (Some d))) p0 =
            replay (nth i cs c0) (nth (i mod List.length rows) rows r0)).
  { intros i Hi.
    rewrite (@arrivals_nth cs (mount (Some d)) d r rs i c0 p0 eq_refl Hp Hi).
    cbn [playbackIndex mount Nat.add]. rewrite <- Hrows. f_equal.
    apply nth_indep. apply Nat.mod_upper_bound. lia. }
  split; [exact Hall|].
  intros j Hj. rewrite ticks_window by (simpl; lia).
  cbn [realtimeData mount app]. unfold lastn.
  rewrite nth_skipn, arrivals_length. apply Hall. lia.
Qed.

(** X2. Without rows to replay, a tick whose three random draws lie in
    [[0, 1)] makes a nameless sample with flow in [[45, 55]], pressure in
    [[8, 12]] and temperature in [[58, 63]], stamped with the tick's
    time, and leaves the index alone. *)
Theorem fallback_sample_in_range :
  forall (u : option Dataset) (idx : nat) (c : Clock),
    playable u = None ->
    (0 <= random_flow c < 1)%Q ->
    (0 <= random_pressure c < 1)%Q ->
    (0 <= random_temp c < 1)%Q ->
    let p := fst (nextPoint u idx c) in
    (45 <= Point.flow p <= 55)%Q /\
    (8 <= Point.pressure p <= 12)%Q /\
    (58 <= Point.temp p <= 63)%Q /\
    Point.name p = None /\
    Point.time p = now c /\
    snd (nextPoint u idx c) = idx.
Proof.
  intros u idx c Hu Hf Hp Ht. unfold nextPoint. rewrite Hu.
  cbn [fst snd Point.flow Point.pressure Point.temp Point.name Point.time].
  repeat split; try reflexivity; lra.
Qed.

Lemma fallback_sample_in_range_witness :
  (45 <= Point.flow (fst (nextPoint None 3 noon)) <= 55)%Q.
Proof.
  assert (Hf : (0 <= random_flow noon < 1)%Q) by (split; [discriminate|reflexivity]).
  assert (Hp : (0 <= random_pressure noon < 1)%Q) by (split; [discriminate|reflexivity]).
  assert (Ht : (0 <= random_temp noon < 1)%Q) by (split; [discriminate|reflexivity]).
  exact (proj1 (@fallback_sample_in_range None 3 noon eq_refl Hf Hp Ht)).
Defined.

Lemma push_bounded prev p :
  List.length prev <= 20 -> List.length (push prev p) <= 20.
Proof.
  intros H. rewrite push_fifo, length_app. simpl.
  destruct (Nat.ltb_spec (List.length prev) 20) as [Hlt|Hge]; [lia|].
  destruct prev; simpl in *; lia.
Qed.

Lemma handle_bounded e st :
  List.length (realtimeData st) <= 20 ->
  List.length (realtimeData (handle e st)) <= 20.
Proof.
  intros H. destruct e as [c|u|t|h]; cbn [handle].
  - rewrite tick_realtimeData. apply push_bounded. exact H.
  - unfold receiveUpload, resetSimulation. cbn [uploadData].
    destruct u; simpl; [lia|exact H].
  - exact H.
  - exact H.
Qed.

(** X3. However ticks, changes of [uploadData], tab selections and
    history loads follow one another after mounting, the buffer never
    holds more than 20 samples. *)
Theorem buffer_bounded_under_events :
  forall (u : option Dataset) (es : list Event),
    List.length (realtimeData (run es (mount u))) <= 20.
Proof.
  intros u es.
  assert (H : forall st, List.length (realtimeData st) <= 20 ->
                         List.length (realtimeData (run es st)) <= 20).
  { induction es as [|e es IH]; intros st Hst; cbn [run]; [exact Hst|].
    apply IH, handle_bounded, Hst. }
  apply H. simpl. lia.
Qed.

Lemma samePlayback_trans a b c :
  samePlayback a b -> samePlayback b c -> samePlayback a c.
Proof.
  intros (H1 & H2 & H3) (H4 & H5 & H6). unfold samePlayback.
  repeat split; etransitivity; eassumption.
Qed.

(** X4. Selecting tabs and loading history never disturb playback: over
    events that do not change [uploadData], dataset, buffer and index
    end up exactly as if only the ticks among them had happened. *)
Theorem tabs_and_history_leave_playback :
  forall (es : list Event) (st : Dashboard),
    noUpload es = true ->
    samePlayback (run es st) (ticks (ticksOf es) st).
Proof.
  induction es as [|e es IH]; intros st Hes.
  - unfold samePlayback. auto.
  - cbn [noUpload forallb] in Hes. apply andb_true_iff in Hes.
    destruct Hes as [He Hes]. fold (noUpload es) in Hes.
    destruct e as [c|u|t|h]; cbn [run handle ticksOf flat_map app].
    + apply IH. exact Hes.
    + discriminate He.
    + eapply samePlayback_trans; [apply IH; exact Hes|].
      apply ticks_samePlayback. unfold samePlayback. auto.
    + eapply samePlayback_trans; [apply IH; exact Hes|].
      apply ticks_samePlayback. unfold samePlayback. auto.
Qed.

Lemma tabs_and_history_leave_playback_witness :
  realtimeData
    (run [Tick noon; SelectTab "history"; HistoryLoaded [march]; Tick noon]
         (mount (Some sampleDataset))) =
  realtimeData (ticks [noon; noon] (mount (Some sampleDataset))).
Proof.
  exact (proj1 (proj2 (@tabs_and_history_leave_playback
     [Tick noon; SelectTab "history"; HistoryLoaded [march]; Tick noon]
     (mount (Some sampleDataset)) eq_refl))).
Defined.

(* ================================================================== *)
(** * Further properties of the overview *)
(* ================================================================== *)

Lemma watchlist_pair rows :
  watchlist rows =
  (mkWatchlist (map Equipment.name (watched rows))
               (map Equipment.health_score (watched rows))
               (map barColor (watched rows)),
   JS.Array_sort byHealth rows).
Proof.
  rewrite (surjective_pairing (watchlist rows)).
  rewrite watchlist_view, watchlist_store. reflexivity.
Qed.

Lemma OverviewTab_rendered d rows :
  equipment_data d = Some rows ->
  OverviewTab (Some d) =
  Rendered
    (mkOverview (systemHealth (avg_health_score d))
                (distribution (equipment_type_distribution d))
                (fst (watchlist rows))
                (trendOverview (JS.Array_sort byHealth rows)),
     JS.Array_sort byHealth rows).
Proof.
  intros Hd. unfold OverviewTab. rewrite Hd, watchlist_pair. reflexivity.
Qed.

Lemma afterFirstRender_sorted d rows :
  equipment_data d = Some rows ->
  afterFirstRender (Some d) =
  Some (withEquipmentData d (JS.Array_sort byHealth rows)).
Proof.
  intros Hd. unfold afterFirstRender.
  change (Dashboard_render (mount (Some d)))
    with (TabBar [true; false; false; false] (OverviewTabElement (Some d))).
  cbv beta iota. rewrite (OverviewTab_rendered d Hd). reflexivity.
Qed.

(** X1. A mounted [Dashboard] renders the overview before any tick can
    run, and that render sorts the dataset's array by health score.  So
    with [N >= 1] rows the [i]-th tick replays row [i mod N] of the rows
    in ascending health order (equal scores in upload order), not of the
    rows in upload order, stamped with that tick's time; the buffer,
    which keeps the last 20 ticks, shows at position [j] the row of tick
    [n - 20 + j] (of tick [j] while [n <= 20]). *)
Theorem playback_replays_sorted_rows_in_cycle :
  forall (d : Dataset) (rows : list Equipment.t) (r0 : Equipment.t)
         (cs : list Clock) (c0 : Clock) (p0 : Point.t),
    equipment_data d = Some rows ->
    1 <= List.length rows ->
    let sorted := JS.Array_sort byHealth rows in
    let st := mount (afterFirstRender (Some d)) in
    uploadData st = Some (withEquipmentData d sorted) /\
    (forall i, i < List.length cs ->
       nth i (arrivals cs st) p0 =
       replay (nth i cs c0) (nth (i mod List.length rows) sorted r0)) /\
    (forall j, j < Nat.min 20 (List.length cs) ->
       nth j (realtimeData (ticks cs st)) p0 =
       replay (nth (List.length cs - 20 + j) cs c0)
              (nth ((List.length cs - 20 + j) mod List.length rows) sorted r0)).
Proof.
  intros d rows r0 cs c0 p0 Hd Hlen sorted st. unfold st.
  rewrite (afterFirstRender_sorted d Hd). fold sorted.
  split; [reflexivity|].
  assert (Hs : List.length sorted = List.length rows)
    by apply Array_sort_length.
  rewrite <- Hs.
  apply arrivals_follow_array; [reflexivity|lia].
Qed.

Lemma playback_replays_sorted_rows_in_cycle_witness :
  Point.name
    (nth 6 (arrivals [noon; noon; noon; noon; noon; noon; noon]
                     (mount (afterFirstRender (Some sampleDataset))))
         (replay noon (Equipment.mk "" "" 0 0 0 0)%Q)) = Some "Reactor-3".
Proof.
  rewrite (proj1 (proj2 (@playback_replays_sorted_rows_in_cycle
                    sampleDataset sampleRows
                    (Equipment.mk "" "" 0 0 0 0)%Q
                    [noon; noon; noon; noon; noon; noon; noon] noon
                    (replay noon (Equipment.mk "" "" 0 0 0 0)%Q)
                    eq_refl ltac:(simpl; lia))) 6 ltac:(simpl; lia)).
  reflexivity.
Defined.

(** X5. In one render of [OverviewTab] the trend chart is built after
    the watchlist has sorted the array, so it charts the first 20 rows
    (all of them when there are fewer) in ascending health order, not in
    the order of the upload, and its first five labels are the labels of
    the watchlist. *)
Theorem overview_trend_reads_sorted_rows :
  forall (d : Dataset) (rows : list Equipment.t),
    equipment_data d = Some rows ->
    exists view : Overview,
      OverviewTab (Some d) = Rendered (view, JS.Array_sort byHealth rows) /\
      line view = trendOverview (JS.Array_sort byHealth rows) /\
      trend_labels (line view) =
        map Equipment.name (firstn 20 (JS.Array_sort byHealth rows)) /\
      List.length (trend_labels (line view)) = Nat.min 20 (List.length rows) /\
      List.length (trend_pressure (line view)) = Nat.min 20 (List.length rows) /\
      List.length (trend_flow (line view)) = Nat.min 20 (List.length rows) /\
      firstn 5 (trend_labels (line view)) = labels (bar view) /\
      StronglySorted (ascending Equipment.health_score)
                     (firstn 20 (JS.Array_sort byHealth rows)).
Proof.
  intros d rows Hd. eexists. split; [apply OverviewTab_rendered; exact Hd|].
  cbn [line bar trendOverview trend_labels trend_pressure trend_flow].
  unfold JS.slice0.
  repeat split;
    try (rewrite length_map, length_firstn, Array_sort_length; reflexivity).
  - rewrite watchlist_view. cbn [labels]. unfold watched, JS.slice0.
    rewrite <- firstn_map, firstn_firstn, <- firstn_map. reflexivity.
  - apply firstn_sorted. apply (Array_sort_sorted _ _ byHealth_key).
Qed.

Lemma overview_trend_reads_sorted_rows_witness :
  exists view : Overview,
    OverviewTab (Some twoRowDataset) = Rendered (view, rev twoRows) /\
    trend_labels (line view) = ["Pump-1"; "Valve-2"].
Proof.
  destruct (@overview_trend_reads_sorted_rows twoRowDataset twoRows eq_refl)
    as (view & H1 & _ & H2 & _).
  exists view. split; [exact H1 | exact H2].
Defined.

(** X6. A render of [OverviewTab] only reorders the dataset's rows, and
    it reaches a fixed point at once: rendering again on the array it
    left behind returns the same element and leaves the array as it is.
    The scatter chart of [AnalyticsTab], drawn from that array, has the
    same points as before the render. *)
Theorem overview_render_only_reorders :
  forall (d : Dataset) (rows arr : list Equipment.t) (view : Overview),
    equipment_data d = Some rows ->
    OverviewTab (Some d) = Rendered (view, arr) ->
    Permutation rows arr /\
    List.length arr = List.length rows /\
    OverviewTab (Some (withEquipmentData d arr)) = Rendered (view, arr) /\
    AnalyticsTab (Some (withEquipmentData d arr)) =
      Rendered (scatterData arr, radarData) /\
    Permutation (scatterData rows) (scatterData arr).
Proof.
  intros d rows arr view Hd Hr.
  pose proof (OverviewTab_rendered d Hd) as H0. rewrite Hr in H0.
  assert (Harr : arr = JS.Array_sort byHealth rows) by congruence.
  assert (Hview : mkOverview (systemHealth (avg_health_score d))
                    (distribution (equipment_type_distribution d))
                    (fst (watchlist rows))
                    (trendOverview (JS.Array_sort byHealth rows)) = view)
    by congruence.
  clear H0 Hr. subst arr.
  assert (Hperm : Permutation rows (JS.Array_sort byHealth rows))
    by apply Array_sort_Permutation.
  split; [exact Hperm|].
  split; [apply Array_sort_length|].
  split.
  - rewrite (@OverviewTab_rendered _ (JS.Array_sort byHealth rows)) by reflexivity.
    cbn [avg_health_score equipment_type_distribution withEquipmentData].
    rewrite (Array_sort_idempotent _ _ byHealth_key).
    rewrite <- Hview. do 3 f_equal.
    rewrite !watchlist_view. unfold watched.
    rewrite (Array_sort_idempotent _ _ byHealth_key). reflexivity.
  - split; [reflexivity|].
    unfold scatterData. apply Permutation_map. exact Hperm.
Qed.

Lemma overview_render_only_reorders_witness :
  Permutation twoRows (JS.Array_sort byHealth twoRows) /\
  OverviewTab
    (Some (withEquipmentData twoRowDataset (JS.Array_sort byHealth twoRows))) =
  OverviewTab (Some twoRowDataset).
Proof.
  pose proof (@OverviewTab_rendered twoRowDataset twoRows eq_refl) as H.
  destruct (@overview_render_only_reorders twoRowDataset twoRows _ _ eq_refl H)
    as (H1 & _ & H2 & _).
  split; [exact H1|]. rewrite H2, H. reflexivity.
Defined.

(* ================================================================== *)
(** * The average cards *)
(* ================================================================== *)

Lemma append_empty_r (a b : string) : (a ++ b)%string = "" -> b = "".
Proof. destruct a; simpl; [auto|discriminate]. Qed.

Lemma toFixed1_nonempty q : (toFixed1 q =? "")%string = false.
Proof.
  apply String.eqb_neq. unfold toFixed1. intros H.
  apply append_empty_r in H. apply append_empty_r in H. discriminate H.
Qed.

Lemma round_half_up_zero x : (x == 0)%Q -> JS.round_half_up (Qabs x * 10)%Q = 0%Z.
Proof.
  intros H. unfold JS.round_half_up.
  assert (E : (Qabs x * 10 + (1 # 2) == 1 # 2)%Q).
  { rewrite H. reflexivity. }
  rewrite E. reflexivity.
Qed.

Lemma ltb_zero_false x : (x == 0)%Q -> JS.ltb x 0%Q = false.
Proof. intros H. apply ltb_ge. rewrite H. apply Qle_refl. Qed.

(** X8. The flow and pressure cards print every number below [10^21]
    in size to one decimal, rounded to the nearest tenth (halves away
    from zero), zero included, which reads [0.0]; only a missing or
    [null] average prints [0].  (The health card beside them replaces a
    zero by 85.)  Each of the three cards is drawn in its own colour of
    the palette, the health card in red or emerald. *)
Theorem average_cards_print_one_decimal :
  forall q : Q,
    (Qabs q < 1000000000000000000000)%Q ->
    value (flowCard (JS.number q)) = toFixed1 q /\
    value (pressureCard (JS.number q)) = toFixed1 q /\
    (exists n : Z,
        (0 <= n)%Z /\
        (inject_Z n <= Qabs q * 10 + (1 # 2))%Q /\
        (Qabs q * 10 + (1 # 2) < inject_Z n + 1)%Q /\
        toFixed1 q =
          ((if JS.ltb q 0%Q then "-" else "") ++
           JS.String_of_N (Z.to_N n / 10) ++ "." ++
           JS.String_of_N (Z.to_N n mod 10))%string) /\
    ((q == 0)%Q -> value (flowCard (JS.number q)) = "0.0" /\
                   value (systemHealth (JS.number q)) = "85%") /\
    value (flowCard JS.undefined) = "0" /\
    value (flowCard JS.null) = "0" /\
    value (pressureCard JS.undefined) = "0" /\
    value (pressureCard JS.null) = "0" /\
    cardClass (color (flowCard (JS.number q))) = "text-cyan-600 bg-cyan-50" /\
    cardClass (color (pressureCard (JS.number q))) = "text-purple-600 bg-purple-50" /\
    (forall v : JS.value,
        (JS.value_ltb v 70%Q = true /\
         cardClass (color (systemHealth v)) = "text-red-600 bg-red-50") \/
        (JS.value_ltb v 70%Q = false /\
         cardClass (color (systemHealth v)) = "text-emerald-600 bg-emerald-50")).
Proof.
  intros q _.
  assert (Hv : fixed1_or_zero (JS.number q) = toFixed1 q).
  { unfold fixed1_or_zero. rewrite toFixed1_nonempty. reflexivity. }
  split; [exact Hv|]. split; [exact Hv|]. split.
  { assert (H0 : (0 <= Qabs q * 10)%Q).
    { apply Qmult_le_0_compat; [apply Qabs_nonneg|discriminate]. }
    destruct (round_half_up_nearest H0) as (Hn & Hlo & Hhi).
    exists (JS.round_half_up (Qabs q * 10)%Q). repeat split; auto. }
  split.
  { intros Hq. split.
    - cbn [flowCard value]. rewrite Hv. unfold toFixed1.
      rewrite (round_half_up_zero Hq), (ltb_zero_false Hq). reflexivity.
    - unfold systemHealth, JS.or_default. cbn [value].
      rewrite (falsy_zero Hq). reflexivity. }
  repeat (split; [reflexivity|]).
  intros v. unfold systemHealth. cbn [color].
  destruct (JS.value_ltb v 70%Q); [left|right]; split; reflexivity.
Qed.

Lemma average_cards_print_one_decimal_witness :
  value (flowCard (JS.number (1234 # 100))) = "12.3" /\
  value (pressureCard (JS.number (55 # 10))) = "5.5".
Proof.
  assert (H1 : (Qabs (1234 # 100) < 1000000000000000000000)%Q) by reflexivity.
  assert (H2 : (Qabs (55 # 10) < 1000000000000000000000)%Q) by reflexivity.
  split.
  - exact (proj1 (@average_cards_print_one_decimal (1234 # 100)%Q H1)).
  - exact (proj1 (proj2 (@average_cards_print_one_decimal (55 # 10)%Q H2))).
Defined.

(* ================================================================== *)
(** * Independence of the stored order *)
(* ================================================================== *)

Lemma filter_Permutation (A : Type) (p : A -> bool) (l l' : list A) :
  Permutation l l' -> Permutation (filter p l) (filter p l').
Proof.
  induction 1 as [|x l l' _ IH|x y l|l l' l'' _ IH1 _ IH2]; simpl.
  - constructor.
  - destruct (p x); [constructor|]; exact IH.
  - destruct (p x), (p y); try reflexivity. apply perm_swap.
  - etransitivity; eassumption.
Qed.

Lemma short_Permutation_eq (A : Type) (l l' : list A) :
  List.length l <= 1 -> Permutation l l' -> l = l'.
Proof.
  intros Hlen Hp. destruct l as [|a [|b l]]; simpl in Hlen; [| |lia].
  - symmetry. apply Permutation_nil. exact Hp.
  - symmetry. apply Permutation_length_1_inv. exact Hp.
Qed.

Section SortOrder.
Variable A : Type.
Variable compareFn : A -> A -> Q.
Variable key : A -> Q.
Hypothesis compare_key :
  forall x y, JS.gtb (compareFn x y) 0%Q = true <-> (key y < key x)%Q.

(** When no two records share a key, sorting forgets the order the
    records came in. *)
Lemma Array_sort_forgets_order l1 l2 :
  Permutation l1 l2 ->
  (forall k, List.length (filter (tied key k) l1) <= 1) ->
  JS.Array_sort compareFn l1 = JS.Array_sort compareFn l2.
Proof.
  intros Hp Hd.
  apply (sorted_stable_unique (key := key));
    try apply (Array_sort_sorted _ _ compare_key).
  intros k. rewrite !(Array_sort_stable _ _ compare_key).
  apply short_Permutation_eq; [apply Hd|].
  apply filter_Permutation. exact Hp.
Qed.
End SortOrder.

Lemma distinct_instants history :
  NoDup (map uploaded_at history) ->
  forall k,
    List.length
      (filter (tied (fun h => inject_Z (uploaded_at h)) k) history) <= 1.
Proof.
  induction history as [|x l IH]; intros Hnd k; simpl; [lia|].
  inversion Hnd as [|? ? Hx Hl]; subst.
  specialize (IH Hl k).
  destruct (tied (fun h => inject_Z (uploaded_at h)) k x) eqn:Ex; [|exact IH].
  destruct (filter (tied (fun h => inject_Z (uploaded_at h)) k) l)
    as [|y rest] eqn:Ef; [simpl; lia|].
  exfalso. apply Hx.
  assert (Hy : In y (filter (tied (fun h => inject_Z (uploaded_at h)) k) l))
    by (rewrite Ef; left; reflexivity).
  apply filter_In in Hy. destruct Hy as [Hin Ey].
  unfold tied in Ex, Ey. apply Qeq_bool_iff in Ex, Ey.
  assert (E : (inject_Z (uploaded_at x) == inject_Z (uploaded_at y))%Q)
    by (rewrite Ex, Ey; reflexivity).
  rewrite (proj1 (inject_Z_injective _ _) E). apply in_map. exact Hin.
Qed.

(** X9. When no two history entries carry the same upload instant, the
    trend view does not depend on the order in which the list is stored:
    two lists with the same entries give the same labels, series and
    upload count. *)
Theorem history_trend_ignores_stored_order :
  forall (tz : Z) (h1 h2 : list Dataset),
    Permutation h1 h2 ->
    NoDup (map uploaded_at h1) ->
    fst (ComparisonTab tz h1) = fst (ComparisonTab tz h2).
Proof.
  intros tz h1 h2 Hp Hnd.
  pose proof (Array_sort_forgets_order byDate _ byDate_key Hp
                (distinct_instants h1 Hnd)) as Hs.
  pose proof (Permutation_length Hp) as Hlen.
  destruct h1 as [|a l1]; destruct h2 as [|b l2]; try discriminate Hlen.
  - reflexivity.
  - unfold ComparisonTab. cbn [fst]. rewrite Hs, Hlen. reflexivity.
Qed.

Lemma history_trend_ignores_stored_order_witness :
  fst (ComparisonTab 0 [march; january]) =
  fst (ComparisonTab 0 [january; march]).
Proof.
  apply history_trend_ignores_stored_order.
  - apply perm_swap.
  - constructor; [|constructor; [|constructor]].
    + simpl. intros [H|[]]. discriminate H.
    + simpl. intros [].
Defined.

Lemma distinct_scores rows :
  ForallOrdPairs
    (fun a b => ~ (Equipment.health_score a == Equipment.health_score b)%Q)
    rows ->
  forall k, List.length (filter (tied Equipment.health_score k) rows) <= 1.
Proof.
  induction 1 as [|x l Hx Hl IH]; intros k; simpl; [lia|].
  specialize (IH k).
  destruct (tied Equipment.health_score k x) eqn:Ex; [|exact IH].
  destruct (filter (tied Equipment.health_score k) l) as [|y rest] eqn:Ef;
    [simpl; lia|].
  exfalso.
  assert (Hy : In y (filter (tied Equipment.health_score k) l))
    by (rewrite Ef; left; reflexivity).
  apply filter_In in Hy. destruct Hy as [Hin Ey].
  rewrite Forall_forall in Hx. apply (Hx y Hin).
  unfold tied in Ex, Ey. apply Qeq_bool_iff in Ex, Ey.
  rewrite Ex, Ey. reflexivity.
Qed.

(** X10. When no two rows have the same health score, the watchlist and
    the array it leaves behind do not depend on the order of the rows in
    the upload. *)
Theorem watchlist_ignores_row_order :
  forall rows1 rows2 : list Equipment.t,
    Permutation rows1 rows2 ->
    ForallOrdPairs
      (fun a b => ~ (Equipment.health_score a == Equipment.health_score b)%Q)
      rows1 ->
    watchlist rows1 = watchlist rows2.
Proof.
  intros rows1 rows2 Hp Hd.
  pose proof (Array_sort_forgets_order byHealth _ byHealth_key Hp
                (distinct_scores Hd)) as Hs.
  rewrite !watchlist_pair. unfold watched. rewrite Hs. reflexivity.
Qed.

Lemma watchlist_ignores_row_order_witness :
  watchlist twoRows = watchlist (rev twoRows).
Proof.
  apply watchlist_ignores_row_order.
  - apply perm_swap.
  - constructor; [|constructor; [constructor|constructor]].
    constructor; [|constructor].
    simpl. intros H. discriminate H.
Defined.

(* ================================================================== *)
(** * Further properties of the handlers *)
(* ================================================================== *)

Lemma String_of_N_inj a b : JS.String_of_N a = JS.String_of_N b -> a = b.
Proof.
  unfold JS.String_of_N. intros H.
  apply DecimalN.Unsigned.to_uint_inj.
  pose proof (NilEmpty.usu (N.to_uint a)) as Ha.
  pose proof (NilEmpty.usu (N.to_uint b)) as Hb.
  rewrite H in Ha. rewrite Ha in Hb. injection Hb as Hb. exact Hb.
Qed.

Lemma string_length_append (s t : string) :
  String.length (s ++ t)%string = String.length s + String.length t.
Proof. induction s as [|c s IH]; simpl; [reflexivity|]. rewrite IH. reflexivity. Qed.

Lemma append_cancel_r (t s1 s2 : string) :
  (s1 ++ t)%string = (s2 ++ t)%string -> s1 = s2.
Proof.
  revert s2. induction s1 as [|c s1 IH]; intros [|c2 s2] H; simpl in H.
  - reflexivity.
  - exfalso. apply (f_equal String.length) in H. simpl in H.
    rewrite string_length_append in H. lia.
  - exfalso. apply (f_equal String.length) in H. simpl in H.
    rewrite string_length_append in H. lia.
  - injection H as Hc Hs. rewrite Hc, (IH s2 Hs). reflexivity.
Qed.

Lemma append_cancel_l (p s1 s2 : string) :
  (p ++ s1)%string = (p ++ s2)%string -> s1 = s2.
Proof.
  induction p as [|c p IH]; simpl; intros H; [exact H|].
  injection H as H. exact (IH H).
Qed.

Lemma report_gets id r url :
  In (Get url) (handleDownloadReport id r) ->
  url = ("reports/" ++ JS.String_of_N id ++ "/pdf/")%string.
Proof.
  unfold handleDownloadReport, onload, saveReport. intros [H|H].
  - injection H as H. symmetry. exact H.
  - exfalso. destruct r as [b|status].
    + destruct (maybeError b); [|simpl in H; intuition discriminate].
      destruct (blob_json b) as [v|]; [|simpl in H; intuition discriminate].
      destruct (get_error v) as [e|]; [|simpl in H; intuition discriminate].
      destruct (errorMessage e); simpl in H; intuition discriminate.
    + simpl in H. intuition discriminate.
Qed.

Lemma report_downloads id r f :
  In f (downloads (handleDownloadReport id r)) -> f = reportFilename id.
Proof.
  unfold handleDownloadReport, onload, saveReport. cbn [downloads flat_map app].
  destruct r as [b|status].
  - destruct (maybeError b).
    + destruct (blob_json b) as [v|].
      * destruct (get_error v) as [e|]; [|simpl; intuition].
        destruct (errorMessage e); simpl; intuition.
      * simpl; intuition.
    + simpl; intuition.
  - simpl; intuition.
Qed.

Lemma delete_requests id confirmed deleted res st url :
  In (Delete url) (fst (handleDeleteDataset id confirmed deleted res st)) ->
  url = ("datasets/" ++ JS.String_of_N id ++ "/")%string.
Proof.
  unfold handleDeleteDataset, fetchHistory.
  destruct confirmed, deleted, res; simpl; intros H;
    repeat (destruct H as [H|H]; try discriminate H);
    try (injection H as H; symmetry; exact H); destruct H.
Qed.

(** X11. Distinct dataset ids never share a file name or a request
    address: if two report downloads ask for the same address or save
    under the same name, or two deletions ask for the same address, they
    were called with the same id. *)
Theorem names_and_addresses_determine_id :
  forall a b : N,
    (reportFilename a = reportFilename b <-> a = b) /\
    (forall r r' url,
        In (Get url) (handleDownloadReport a r) ->
        In (Get url) (handleDownloadReport b r') -> a = b) /\
    (forall r r' f,
        In f (downloads (handleDownloadReport a r)) ->
        In f (downloads (handleDownloadReport b r')) -> a = b) /\
    (forall c d res st c' d' res' st' url,
        In (Delete url) (fst (handleDeleteDataset a c d res st)) ->
        In (Delete url) (fst (handleDeleteDataset b c' d' res' st')) -> a = b).
Proof.
  intros a b.
  assert (Hname : reportFilename a = reportFilename b -> a = b).
  { unfold reportFilename. intros H.
    apply append_cancel_l, append_cancel_r in H. apply String_of_N_inj, H. }
  split; [split; [exact Hname|intros ->; reflexivity]|].
  split; [|split].
  - intros r r' url Ha Hb.
    apply report_gets in Ha, Hb. rewrite Ha in Hb.
    apply append_cancel_l, append_cancel_r in Hb. apply String_of_N_inj, Hb.
  - intros r r' f Ha Hb.
    apply report_downloads in Ha, Hb. apply Hname. congruence.
  - intros c d res st c' d' res' st' url Ha Hb.
    apply delete_requests in Ha, Hb. rewrite Ha in Hb.
    apply append_cancel_l, append_cancel_r in Hb. apply String_of_N_inj, Hb.
Qed.

(** X12. Whatever the server answers, [handleDownloadReport] first asks
    for the report of that id and then does exactly one of two things:
    it shows one alert and saves nothing, or it saves one file, named
    after the id, and shows no alert.  A rejected request is of the first
    kind; its alert carries the status when the server sent one. *)
Theorem report_alerts_or_saves :
  forall (id : N) (r : Response),
    let es := handleDownloadReport id r in
    hd_error es = Some (Get ("reports/" ++ JS.String_of_N id ++ "/pdf/")%string) /\
    ((exists m, alerts es = [m] /\ downloads es = []) \/
     (alerts es = [] /\ downloads es = [reportFilename id])) /\
    (forall status : N,
        userSees (handleDownloadReport id (Rejected (Some status))) =
        ([("Failed to download report. (Server Status: " ++
           JS.String_of_N status ++ ")")%string], [])) /\
    userSees (handleDownloadReport id (Rejected None)) =
      (["Failed to download report."], []).
Proof.
  intros id r es. split; [reflexivity|]. split; [|split; reflexivity].
  unfold es, handleDownloadReport, onload.
  destruct r as [b|status].
  - destruct (maybeError b); [|right; split; reflexivity].
    destruct (blob_json b) as [v|]; [|right; split; reflexivity].
    destruct (get_error v) as [e|]; [|right; split; reflexivity].
    destruct (errorMessage e) as [message|].
    + left. eexists. split; reflexivity.
    + right. split; reflexivity.
  - left. eexists. split; reflexivity.
Qed.

(** X13. Refreshing and deleting touch nothing but the history list:
    dataset, tab, buffer and index stay as they were, no file is saved,
    and a failed refresh is logged without an alert.  After
    [handleDeleteDataset] the list is either the one before or, when the
    deletion was confirmed and succeeded and the refresh was answered,
    the answer; the history request is sent exactly in the confirmed and
    succeeded case. *)
Theorem history_handlers_touch_only_history :
  forall (id : N) (confirmed deleted : bool) (res : option (list Dataset))
         (st : Dashboard),
    let r := handleDeleteDataset id confirmed deleted res st in
    let f := fetchHistory res st in
    samePlayback (snd r) st /\
    activeTab (snd r) = activeTab st /\
    isSimulating (snd r) = isSimulating st /\
    (history (snd r) = history st \/
     (confirmed = true /\ deleted = true /\ res = Some (history (snd r)))) /\
    downloads (fst r) = [] /\
    (In (Get "datasets/history/") (fst r) <-> confirmed = true /\ deleted = true) /\
    samePlayback (snd f) st /\
    activeTab (snd f) = activeTab st /\
    alerts (fst f) = [] /\
    downloads (fst f) = [] /\
    (history (snd f) = history st \/ res = Some (history (snd f))).
Proof.
  intros id confirmed deleted res st r f. unfold r, f, samePlayback.
  unfold handleDeleteDataset, fetchHistory.
  destruct confirmed, deleted, res; cbn [negb fst snd];
    repeat match goal with |- _ /\ _ => split end;
    first
      [ reflexivity
      | left; reflexivity
      | right; repeat split; reflexivity
      | split;
        [ intros H; simpl in H; intuition discriminate
        | intros [H1 H2]; try discriminate H1; try discriminate H2;
          simpl; auto 8 ] ].
Qed.

(** X14. What [Dashboard] shows.  The prompt appears exactly when there
    is no dataset and the tab is not the history tab.  So whenever the
    overview or the analytics tab is rendered it is given a dataset
    (their own test for a missing one never fires), and without a
    dataset the trend comparison, which needs the history only, is not
    shown either.  After any sequence of clicks the screen is the prompt
    or has exactly one tab highlighted. *)
Theorem dashboard_shows_prompt_or_tab :
  forall st : Dashboard,
    (Dashboard_render st = NoActiveAnalysis <->
     uploadData st = None /\ activeTab st <> "history") /\
    (forall hl data,
        Dashboard_render st = TabBar hl (OverviewTabElement data) \/
        Dashboard_render st = TabBar hl (AnalyticsTabElement data) ->
        exists d, data = Some d /\ uploadData st = Some d /\
                  OverviewTab data <> RenderNull /\
                  AnalyticsTab data <> RenderNull) /\
    (forall hl h,
        Dashboard_render st = TabBar hl (ComparisonTabElement h) ->
        uploadData st <> None /\ h = history st) /\
    (forall u, reachable u st ->
        Dashboard_render st = NoActiveAnalysis \/
        highlights (Dashboard_render st) = 1).
Proof.
  intros st. unfold Dashboard_render, showsPrompt, renderContent.
  split; [|split; [|split]].
  - destruct (uploadData st) as [d|].
    + split; [discriminate|]. intros [H _]. discriminate H.
    + destruct (String.eqb_spec (activeTab st) "history") as [E|E]; simpl.
      * split; [discriminate|]. intros [_ H]. contradiction.
      * split; auto.
  - intros hl data H.
    destruct (uploadData st) as [d|].
    + exists d.
      assert (Hd : data = Some d).
      { destruct H as [H|H]; cbn [negb] in H;
          destruct (activeTab st =? "overview")%string;
          destruct (activeTab st =? "analytics")%string;
          destruct (activeTab st =? "comparison")%string;
          destruct (activeTab st =? "history")%string;
          congruence. }
      subst data. repeat split; auto.
      * simpl. destruct (equipment_data d); discriminate.
      * simpl. destruct (equipment_data d); discriminate.
    + exfalso.
      destruct (String.eqb_spec (activeTab st) "history") as [E|E];
        [|destruct H as [H|H]; discriminate H].
      rewrite E in H. cbn in H. destruct H as [H|H]; discriminate H.
  - intros hl h H.
    destruct (uploadData st) as [d|].
    + split; [discriminate|]. cbn [negb] in H.
      destruct (activeTab st =? "overview")%string;
        destruct (activeTab st =? "analytics")%string;
        destruct (activeTab st =? "comparison")%string;
        destruct (activeTab st =? "history")%string;
        congruence.
    + exfalso.
      destruct (String.eqb_spec (activeTab st) "history") as [E|E];
        [|discriminate H].
      rewrite E in H. cbn in H. discriminate H.
  - intros u Hreach. destruct (reachable_idle Hreach) as (Htab & _).
    destruct (uploadData st) as [d|].
    + right. simpl in Htab.
      destruct Htab as [E|[E|[E|[E|[]]]]]; rewrite <- E; reflexivity.
    + simpl in Htab.
      destruct Htab as [E|[E|[E|[E|[]]]]]; rewrite <- E; cbn; auto.
Qed.

(* ================================================================== *)
(** * Session *)
(* ================================================================== *)

Lemma nonempty_Some t : t <> "" -> nonempty (Some t) = true.
Proof.
  intros H. simpl. apply negb_true_iff. apply String.eqb_neq. exact H.
Qed.

(** X15. A successful login whose token and user name are not empty
    shows the dashboard, sends the token on later requests, and survives
    a reload of the page: the reloaded application is logged in as the
    same user with the same header.  The dataset does not survive: after
    the reload the dashboard starts without one. *)
Theorem login_survives_reload :
  forall (a : App.t) (b : Browser) (token name : string),
    token <> "" ->
    name <> "" ->
    let a1 := fst (handleLogin (LoginResolved (Some token) (Some name)) a b) in
    let b1 := snd (handleLogin (LoginResolved (Some token) (Some name)) a b) in
    let a2 := fst (boot (localStorage b1)) in
    let b2 := snd (boot (localStorage b1)) in
    App_render a1 = DashboardView (App.currentUpload a) /\
    App.error a1 = None /\
    App.loading a1 = false /\
    Authorization b1 = Some ("Token " ++ token)%string /\
    localStorage b1 = mkStorage (Some name) (Some token) /\
    App.user a2 = Some name /\
    Authorization b2 = Some ("Token " ++ token)%string /\
    App_render a2 = DashboardView None /\
    Dashboard_render (mount None) = NoActiveAnalysis.
Proof.
  intros a b token name Ht Hn a1 b1 a2 b2.
  unfold a2, b2, a1, b1, boot, restoreSession, apiInit, handleLogin,
    setAuthToken, App_render.
  rewrite (nonempty_Some Ht).
  cbn [fst snd localStorage Authorization flowdrishti_user flowdrishti_token
       App.user App.activeTab App.currentUpload App.error App.loading].
  rewrite (nonempty_Some Ht), (nonempty_Some Hn).
  cbn [andb negb App.user App.activeTab App.currentUpload App_initial].
  rewrite (nonempty_Some Hn). repeat split; reflexivity.
Qed.

Lemma login_survives_reload_witness :
  App.user
    (fst (boot (localStorage
                  (snd (handleLogin (LoginResolved (Some "t0k3n") (Some "admin"))
                                    App_initial cleanBrowser))))) =
  Some "admin".
Proof.
  assert (Ht : "t0k3n" <> "") by discriminate.
  assert (Hn : "admin" <> "") by discriminate.
  exact (proj1 (proj2 (proj2 (proj2 (proj2 (proj2
    (@login_survives_reload App_initial cleanBrowser "t0k3n" "admin" Ht Hn))))))).
Defined.

(** X16. Logging out, from any state, shows the login screen, drops the
    dataset, removes both stored entries and the header, so that a
    reload stays logged out; and whoever logs in next starts without a
    dataset. *)
Theorem logout_clears_session :
  forall (a : App.t) (b : Browser) (r : LoginResponse),
    let a1 := fst (handleLogout a b) in
    let b1 := snd (handleLogout a b) in
    App_render a1 = LoginScreen /\
    App.currentUpload a1 = None /\
    App.activeTab a1 = "dashboard" /\
    b1 = mkBrowser (mkStorage None None) None /\
    boot (localStorage b1) = (App_initial, mkBrowser (mkStorage None None) None) /\
    App_render (fst (boot (localStorage b1))) = LoginScreen /\
    App.currentUpload (fst (handleLogin r a1 b1)) = None.
Proof.
  intros a b r a1 b1. unfold a1, b1.
  repeat split; try reflexivity.
  destruct r as [|token [name|]]; reflexivity.
Qed.

(** X17. A login that fails changes neither the user nor the dataset,
    clears the loading flag and sets the error text.  When the request
    was rejected, storage and header stay as they were; when it was
    answered with a token but without a user, the token is nevertheless
    stored and sent from then on, although the login is reported as
    failed and no user is stored. *)
Theorem failed_login_keeps_user :
  forall (a : App.t) (b : Browser) (token : string),
    token <> "" ->
    let rejected := handleLogin LoginRejected a b in
    let partial := handleLogin (LoginResolved (Some token) None) a b in
    snd rejected = b /\
    App.user (fst rejected) = App.user a /\
    App.currentUpload (fst rejected) = App.currentUpload a /\
    App.loading (fst rejected) = false /\
    App.error (fst rejected) = Some "Invalid username or password" /\
    App.user (fst partial) = App.user a /\
    App.loading (fst partial) = false /\
    App.error (fst partial) = Some "Invalid username or password" /\
    Authorization (snd partial) = Some ("Token " ++ token)%string /\
    flowdrishti_token (localStorage (snd partial)) = Some token /\
    flowdrishti_user (localStorage (snd partial)) =
      flowdrishti_user (localStorage b).
Proof.
  intros a b token Ht rejected partial. unfold rejected, partial.
  unfold handleLogin, setAuthToken. rewrite (nonempty_Some Ht).
  repeat split; reflexivity.
Qed.

Lemma failed_login_keeps_user_witness :
  Authorization
    (snd (handleLogin (LoginResolved (Some "t0k3n") None) App_initial cleanBrowser)) =
  Some "Token t0k3n" /\
  App.user
    (fst (handleLogin (LoginResolved (Some "t0k3n") None) App_initial cleanBrowser)) =
  None.
Proof.
  assert (Ht : "t0k3n" <> "") by discriminate.
  destruct (@failed_login_keeps_user App_initial cleanBrowser "t0k3n" Ht)
    as (_ & _ & _ & _ & _ & Hu & _ & _ & Ha & _).
  split; [exact Ha | exact Hu].
Defined.

(* ================================================================== *)
(** * Upload *)
(* ================================================================== *)

Lemma truthyMember_truthy key d e :
  truthyMember key d = Some e -> json_truthy e = true.
Proof.
  unfold truthyMember. destruct (member key d) as [x|]; [|discriminate].
  destruct (json_truthy x) eqn:E; [|discriminate].
  intros H. injection H as <-. exact E.
Qed.

Lemma string_nonempty_truthy s : s <> "" -> json_truthy (JString s) = true.
Proof.
  intros H. simpl. apply negb_true_iff. apply String.eqb_neq. exact H.
Qed.

Lemma JSON_stringify_nonempty d :
  (forall n, d = JNumber n -> n <> "") -> JSON_stringify d <> "".
Proof.
  intros Hn. destruct d as [|[|]|n|s|l|m]; simpl; try discriminate.
  apply (Hn n). reflexivity.
Qed.

Lemma uploadErrorMessage_truthy data message :
  (forall n, data = Some (JNumber n) -> n <> "") ->
  json_truthy (uploadErrorMessage data message) = true.
Proof.
  intros Hn. unfold uploadErrorMessage.
  assert (Hmsg : json_truthy
            (if nonempty message
             then match message with Some m => JString m | None => JNull end
             else JString "Upload failed. Ensure valid CSV.") = true).
  { destruct message as [m|]; simpl; [|reflexivity].
    destruct (m =? "")%string eqn:E; simpl; [reflexivity|].
    rewrite E. reflexivity. }
  destruct data as [d|]; [|exact Hmsg].
  destruct (json_truthy d) eqn:Ed; [|exact Hmsg].
  destruct (truthyMember "error" d) as [e|] eqn:Ee;
    [exact (truthyMember_truthy _ _ Ee)|].
  destruct (truthyMember "detail" d) as [e|] eqn:Edt;
    [exact (truthyMember_truthy _ _ Edt)|].
  apply string_nonempty_truthy. apply JSON_stringify_nonempty.
  intros n ->. apply Hn. reflexivity.
Qed.

Lemma uploadErrorMessage_renderable data message :
  (forall key d e,
      data = Some d -> truthyMember key d = Some e -> renderable e = true) ->
  renderable (uploadErrorMessage data message) = true.
Proof.
  intros Hr. unfold uploadErrorMessage.
  assert (Hmsg : renderable
            (if nonempty message
             then match message with Some m => JString m | None => JNull end
             else JString "Upload failed. Ensure valid CSV.") = true).
  { destruct (nonempty message); [destruct message|]; reflexivity. }
  destruct data as [d|]; [|exact Hmsg].
  destruct (json_truthy d); [|exact Hmsg].
  destruct (truthyMember "error" d) as [e|] eqn:Ee;
    [exact (Hr "error" d e eq_refl Ee)|].
  destruct (truthyMember "detail" d) as [e|] eqn:Edt;
    [exact (Hr "detail" d e eq_refl Edt)|].
  reflexivity.
Qed.

(** X18. After a failed upload the form always holds a truthy error
    value, whatever the rejection carries (a body with [error], a body
    with [detail], any other body, a bare message, nothing); the loading
    flag is off, the chosen file is still selected, the submit button is
    enabled for another try, and the parent is not told of any dataset.
    The banner is rendered with that value when React can render it, in
    particular whenever the truthy [error] and [detail] members of the
    body hold no object; when the value is or holds an object, rendering
    the banner throws instead.  Never is the form rendered without a
    banner.  (A numeral is never the empty string.) *)
Theorem failed_upload_shows_error :
  forall (u : Upload.t) (f : Upload.File) (data : option json)
         (message : option string),
    Upload.file u = Some f ->
    (forall n, data = Some (JNumber n) -> n <> "") ->
    let u' := fst (handleUpload (UploadRejected data message) u) in
    let es := snd (handleUpload (UploadRejected data message) u) in
    let msg := uploadErrorMessage data message in
    Upload.error u' = Some msg /\
    json_truthy msg = true /\
    errorBanner u' = (if renderable msg then ErrorBanner msg else BannerThrows) /\
    errorBanner u' <> NoBanner /\
    ((forall key d e,
         data = Some d -> truthyMember key d = Some e -> renderable e = true) ->
     showsError u' = true) /\
    Upload.loading u' = false /\
    Upload.file u' = Some f /\
    submitDisabled u' = false /\
    es = [PostUpload f (removeFirst ".csv" (Upload.name f)); LogError] /\
    (forall d, ~ In (CallOnUploadSuccess d) es).
Proof.
  intros u f data message Hf Hn u' es msg. unfold u', es, handleUpload.
  rewrite Hf. cbn [fst snd]. unfold showsError, errorBanner, submitDisabled.
  cbn [Upload.error Upload.loading Upload.file orb]. fold msg.
  pose proof (uploadErrorMessage_truthy message Hn) as Ht. fold msg in Ht.
  rewrite Ht.
  split; [reflexivity|]. split; [reflexivity|]. split; [reflexivity|].
  split; [destruct (renderable msg); discriminate|].
  split.
  { intros Hr. unfold msg.
    rewrite (uploadErrorMessage_renderable message Hr). reflexivity. }
  repeat split; try reflexivity.
  intros d [H|[H|[]]]; discriminate H.
Qed.

Lemma failed_upload_shows_error_witness :
  Upload.error
    (fst (handleUpload
            (UploadRejected (Some (JObject [("detail", JString "Too large")])) None)
            fileChosen)) = Some (JString "Too large") /\
  errorBanner
    (fst (handleUpload
            (UploadRejected (Some (JObject [("detail", JString "Too large")])) None)
            fileChosen)) = ErrorBanner (JString "Too large") /\
  errorBanner
    (fst (handleUpload
            (UploadRejected
               (Some (JObject [("error", JObject [("code", JNumber "7")])])) None)
            fileChosen)) = BannerThrows.
Proof.
  assert (Hn : forall n,
             Some (JObject [("detail", JString "Too large")]) = Some (JNumber n) ->
             n <> "") by (intros n H; discriminate H).
  assert (Hm : forall n,
             Some (JObject [("error", JObject [("code", JNumber "7")])]) =
             Some (JNumber n) -> n <> "") by (intros n H; discriminate H).
  split; [|split].
  - exact (proj1 (@failed_upload_shows_error fileChosen telemetryCsv _ None
                    eq_refl Hn)).
  - exact (proj1 (proj2 (proj2 (@failed_upload_shows_error fileChosen
                    telemetryCsv _ None eq_refl Hn)))).
  - exact (proj1 (proj2 (proj2 (@failed_upload_shows_error fileChosen
                    telemetryCsv _ None eq_refl Hm)))).
Defined.

(** X19. Submitting without a file sends nothing and shows the error
    [Please select a file.]; in that state the submit button is disabled
    anyway.  Submitting a file that the server accepts posts it once,
    hands the answer to the parent, deselects the file and clears the
    loading flag, and the parent then shows the dashboard with exactly
    that dataset to a logged-in user. *)
Theorem upload_reaches_dashboard :
  forall (u : Upload.t) (f : Upload.File) (r : UploadResponse)
         (data : option Dataset) (a : App.t),
    Upload.file u = Some f ->
    let ok := handleUpload (UploadResolved data) u in
    snd ok = [PostUpload f (removeFirst ".csv" (Upload.name f));
              CallOnUploadSuccess data] /\
    Upload.file (fst ok) = None /\
    Upload.loading (fst ok) = false /\
    Upload.error (fst ok) = Upload.error u /\
    submitDisabled (fst ok) = true /\
    App.currentUpload (onUploadSuccess data a) = data /\
    (nonempty (App.user a) = true ->
     App_render (onUploadSuccess data a) = DashboardView data) /\
    (forall v : Upload.t,
        Upload.file v = None ->
        snd (handleUpload r v) = [] /\
        Upload.error (fst (handleUpload r v)) =
          Some (JString "Please select a file.") /\
        showsError (fst (handleUpload r v)) = true /\
        Upload.loading (fst (handleUpload r v)) = Upload.loading v /\
        submitDisabled v = true).
Proof.
  intros u f r data a Hf ok. unfold ok, handleUpload. rewrite Hf.
  cbn [fst snd Upload.file Upload.loading Upload.error].
  repeat split; try reflexivity.
  - unfold App_render. intros Hu. simpl. rewrite Hu. reflexivity.
  - rewrite H. reflexivity.
  - rewrite H. reflexivity.
  - rewrite H. reflexivity.
  - rewrite H. reflexivity.
  - unfold submitDisabled. rewrite H. apply orb_true_r.
Qed.

Lemma upload_reaches_dashboard_witness :
  snd (handleUpload (UploadResolved (Some sampleDataset)) fileChosen) =
  [PostUpload telemetryCsv "telemetry"; CallOnUploadSuccess (Some sampleDataset)].
Proof.
  exact (proj1 (@upload_reaches_dashboard fileChosen telemetryCsv
                  (UploadResolved None) (Some sampleDataset) App_initial eq_refl)).
Defined.

Lemma ascii_dec_same (T : Type) (a : ascii) (x y : T) :
  (if Ascii.ascii_dec a a then x else y) = x.
Proof.
  destruct (Ascii.ascii_dec a a) as [_|E]; [reflexivity|].
  contradiction E. reflexivity.
Qed.

Lemma prefix_append pattern s :
  String.prefix pattern (pattern ++ s)%string = true.
Proof.
  induction pattern as [|a p IH].
  - destruct s; reflexivity.
  - cbn [append String.prefix]. rewrite ascii_dec_same. exact IH.
Qed.

Lemma drop_append pattern s :
  drop (String.length pattern) (pattern ++ s)%string = s.
Proof. induction pattern as [|a p IH]; [reflexivity|exact IH]. Qed.

Lemma append_empty (s : string) : (s ++ "")%string = s.
Proof. induction s as [|c s IH]; [reflexivity|]. cbn [append]. rewrite IH. reflexivity. Qed.

Lemma removeFirst_step pattern s :
  removeFirst pattern s =
  if String.prefix pattern s then drop (String.length pattern) s
  else
    match s with
    | EmptyString => EmptyString
    | String c s' => String c (removeFirst pattern s')
    end.
Proof. destruct s; reflexivity. Qed.

(** [removeFirst] takes out the first occurrence of the pattern and
    nothing else. *)
Lemma removeFirst_first_occurrence pattern pre post :
  noEarlier pattern pre (pattern ++ post) = true ->
  removeFirst pattern (pre ++ pattern ++ post)%string = (pre ++ post)%string.
Proof.
  induction pre as [|c pre IH]; intros H.
  - cbn [append]. rewrite removeFirst_step, prefix_append, drop_append.
    reflexivity.
  - cbn [noEarlier] in H. apply andb_true_iff in H. destruct H as [Hc Hpre].
    apply negb_true_iff in Hc.
    rewrite removeFirst_step, Hc. cbn [append]. rewrite (IH Hpre). reflexivity.
Qed.

Lemma removeFirst_absent pattern s :
  noEarlier pattern s "" = true -> removeFirst pattern s = s.
Proof.
  induction s as [|c s IH]; intros H.
  - rewrite removeFirst_step. destruct (String.prefix pattern ""); [|reflexivity].
    destruct (String.length pattern); reflexivity.
  - cbn [noEarlier] in H. apply andb_true_iff in H. destruct H as [Hc Hs].
    apply negb_true_iff in Hc. rewrite append_empty in Hc.
    rewrite removeFirst_step, Hc, (IH Hs). reflexivity.
Qed.

Lemma noEarlier_spec pattern pre tail :
  noEarlier pattern pre tail = true <->
  forall p1 p2 : string,
    pre = (p1 ++ p2)%string -> p2 <> "" ->
    String.prefix pattern (p2 ++ tail)%string = false.
Proof.
  induction pre as [|c pre IH].
  - split; [|reflexivity].
    intros _ p1 p2 H Hp2. destruct p1; destruct p2; try discriminate H.
    contradiction Hp2.
  - cbn [noEarlier]. rewrite andb_true_iff, negb_true_iff, IH. split.
    + intros [Hc Hpre] p1 p2 H Hp2. destruct p1 as [|c1 p1].
      * cbn [append] in H. subst p2. exact Hc.
      * cbn [append] in H. injection H as _ H. exact (Hpre p1 p2 H Hp2).
    + intros H. split.
      * apply (H "" (String c pre)); [reflexivity|discriminate].
      * intros p1 p2 Hp Hp2. apply (H (String c p1) p2); [|exact Hp2].
        cbn [append]. rewrite Hp. reflexivity.
Qed.

(** X20. The dataset name that [handleUpload] posts is the file name
    with its first [.csv] taken out and nothing else changed: if the
    name is [pre.csv] followed by [post] and [.csv] does not occur at
    any position inside [pre], the name posted is [pre] followed by
    [post], whatever else [pre] and [post] contain ([report.v2.csv]
    gives [report.v2], and [a.csv.csv] gives [a.csv]); a name in which
    [.csv] does not occur is posted unchanged. *)
Theorem upload_name_drops_first_csv :
  forall (u : Upload.t) (f : Upload.File) (r : UploadResponse)
         (pre post : string),
    Upload.file u = Some f ->
    Upload.name f = (pre ++ ".csv" ++ post)%string ->
    noEarlier ".csv" pre (".csv" ++ post) = true ->
    (exists rest, snd (handleUpload r u) = PostUpload f (pre ++ post) :: rest) /\
    (forall p1 p2 : string,
        pre = (p1 ++ p2)%string -> p2 <> "" ->
        String.prefix ".csv" (p2 ++ ".csv" ++ post)%string = false) /\
    (forall (v : Upload.t) (g : Upload.File),
        Upload.file v = Some g ->
        noEarlier ".csv" (Upload.name g) "" = true ->
        exists rest,
          snd (handleUpload r v) = PostUpload g (Upload.name g) :: rest).
Proof.
  intros u f r pre post Hf Hname Hfirst.
  split; [|split].
  - unfold handleUpload. rewrite Hf, Hname.
    rewrite (removeFirst_first_occurrence ".csv" pre post Hfirst).
    destruct r; eexists; reflexivity.
  - apply noEarlier_spec. exact Hfirst.
  - intros v g Hg Habsent. unfold handleUpload. rewrite Hg.
    rewrite (removeFirst_absent ".csv" (Upload.name g) Habsent).
    destruct r; eexists; reflexivity.
Qed.

Lemma upload_name_drops_first_csv_witness :
  (exists rest,
      snd (handleUpload (UploadResolved None)
             (Upload.mk (Some (Upload.mkFile "report.v2.csv" 10)) false None false)) =
      PostUpload (Upload.mkFile "report.v2.csv" 10) "report.v2" :: rest) /\
  (exists rest,
      snd (handleUpload (UploadResolved None)
             (Upload.mk (Some (Upload.mkFile "a.csv.csv" 10)) false None false)) =
      PostUpload (Upload.mkFile "a.csv.csv" 10) "a.csv" :: rest).
Proof.
  split.
  - exact (proj1 (@upload_name_drops_first_csv
                    (Upload.mk (Some (Upload.mkFile "report.v2.csv" 10)) false None false)
                    (Upload.mkFile "report.v2.csv" 10) (UploadResolved None)
                    "report.v2" "" eq_refl eq_refl eq_refl)).
  - exact (proj1 (@upload_name_drops_first_csv
                    (Upload.mk (Some (Upload.mkFile "a.csv.csv" 10)) false None false)
                    (Upload.mkFile "a.csv.csv" 10) (UploadResolved None)
                    "a" ".csv" eq_refl eq_refl eq_refl)).
Defined.

(** X21. Choosing or dropping a file dismisses whatever error was shown
    and selects that file, so after a failed upload the user can pick
    another file and submit again; dropping or choosing nothing keeps
    the selection and the error.  A drop always ends the drag highlight;
    drag events other than enter, over and leave change nothing. *)
Theorem selecting_a_file_dismisses_error :
  forall (u : Upload.t) (f g : Upload.File) (rest : list Upload.File)
         (data : option json) (message : option string) (type : string),
    Upload.file u = Some f ->
    let failed := fst (handleUpload (UploadRejected data message) u) in
    showsError (handleChange (g :: rest) failed) = false /\
    showsError (handleDrop (g :: rest) failed) = false /\
    Upload.file (handleChange (g :: rest) failed) = Some g /\
    Upload.file (handleDrop (g :: rest) failed) = Some g /\
    submitDisabled (handleChange (g :: rest) failed) = false /\
    submitDisabled (handleDrop (g :: rest) failed) = false /\
    handleChange [] failed = failed /\
    Upload.file (handleDrop [] failed) = Some f /\
    Upload.error (handleDrop [] failed) = Upload.error failed /\
    Upload.dragActive (handleDrop rest (handleDrag type u)) = false /\
    (type <> "dragenter" -> type <> "dragover" -> type <> "dragleave" ->
     handleDrag type u = u).
Proof.
  intros u f g rest data message type Hf failed.
  unfold failed, handleUpload. rewrite Hf.
  cbn [fst handleChange handleDrop showsError submitDisabled
       Upload.error Upload.file Upload.loading orb].
  repeat split; try reflexivity.
  - destruct rest; reflexivity.
  - intros H1 H2 H3. unfold handleDrag.
    apply String.eqb_neq in H1, H2, H3. rewrite H1, H2, H3. reflexivity.
Qed.

Lemma selecting_a_file_dismisses_error_witness :
  showsError
    (handleChange [telemetryCsv]
       (fst (handleUpload (UploadRejected None (Some "Network Error")) fileChosen)))
  = false.
Proof.
  exact (proj1 (@selecting_a_file_dismisses_error fileChosen telemetryCsv
                  telemetryCsv [] None (Some "Network Error") "drop" eq_refl)).
Defined.
